(** * cartographer_ros/sensor_bridge.cc: the sensor bridge

    A shallow embedding of [SensorBridge], the adapter that converts ROS
    sensor messages into cartographer sensor records, resolves the sensor
    frame against the tracking frame and hands the record to the trajectory
    builder.

    - C++ [float] and [double] are IEEE 754 binary32 and binary64 values,
      taken from the Standard Library's executable specification
      [SpecFloat] (round to nearest, ties to even).
    - [carto::common::Time] and [Duration] count ticks of the universal time
      scale in a 64-bit signed integer; they are integers here.  Signed
      overflow is undefined in C++ and is not modelled.
    - [std::map<std::string, Time>] is a [gmap string Z].
    - A handler is a function from the bridge's state to the list of
      [AddSensorData] calls it makes, in order, and either the state it
      leaves or the fact that the process stopped (a failed [CHECK], or
      behaviour C++ leaves undefined).
    - The transform buffer, the trajectory builder's record types, Eigen's
      rigid transforms and the message conversions live outside this file;
      they are the members of the class [Collaborators]. *)

From Stdlib Require Import ZArith List Ascii String Bool Lia.
From Stdlib Require Import Floats.SpecFloat.
From stdpp Require Import base option list sorting gmap strings.

Local Open Scope Z_scope.

(** ** IEEE 754 arithmetic of [float] and [double] *)

Module IEEE.

Definition float := spec_float.
Definition double := spec_float.

Definition f_prec : Z := 24.
Definition f_emax : Z := 128.
Definition d_prec : Z := 53.
Definition d_emax : Z := 1024.

(** Conversion of a value to the format [prec], [emax]: exact when the
    value is representable, rounded to nearest otherwise. *)
Definition convert (prec emax : Z) (x : spec_float) : spec_float :=
  match x with
  | S754_finite s m e => binary_round prec emax s m e
  | _ => x
  end.

(** [float] to [double] (implicit promotion) and [double] to [float]
    (implicit narrowing, as in [float -= double] or a [float]
    constructor argument). *)
Definition to_double (x : float) : double := convert d_prec d_emax x.
Definition to_float (x : double) : float := convert f_prec f_emax x.

(** Integer to floating point. *)
Definition float_of_Z (z : Z) : float := binary_normalize f_prec f_emax z 0 false.
Definition double_of_Z (z : Z) : double := binary_normalize d_prec d_emax z 0 false.

Definition fmul (x y : float) : float := SFmul f_prec f_emax x y.
Definition fdiv (x y : float) : float := SFdiv f_prec f_emax x y.
Definition fadd (x y : float) : float := SFadd f_prec f_emax x y.
Definition dsub (x y : double) : double := SFsub d_prec d_emax x y.
Definition dadd (x y : double) : double := SFadd d_prec d_emax x y.
Definition dmul (x y : double) : double := SFmul d_prec d_emax x y.
Definition ddiv (x y : double) : double := SFdiv d_prec d_emax x y.
Definition dsqrt (x : double) : double := SFsqrt d_prec d_emax x.

(** The comparisons do not depend on the format. *)
Definition eqb (x y : spec_float) : bool := SFeqb x y.
Definition leb (x y : spec_float) : bool := SFleb x y.
Definition ltb (x y : spec_float) : bool := SFltb x y.

Definition zero : spec_float := S754_zero false.

(** The literals of the source: [0.f], [1e-9f], [-1] and [1e-5]. *)
Definition f_1e_9 : float :=
  Eval vm_compute in fdiv (float_of_Z 1) (float_of_Z 1000000000).
Definition d_minus_1 : double := Eval vm_compute in double_of_Z (-1).
Definition d_1e_5 : double :=
  Eval vm_compute in ddiv (double_of_Z 1) (double_of_Z 100000).

Definition is_finite (x : spec_float) : bool :=
  match x with
  | S754_zero _ | S754_finite _ _ _ => true
  | _ => false
  end.

End IEEE.

Import IEEE.

(** ** Integers of the source *)

(** [size_t] arithmetic is modulo [2^64]. *)
Definition size_t_wrap (z : Z) : Z := z mod 2 ^ 64.

(** [carto::common::Time] and [carto::common::Duration]. *)
Definition Time := Z.
Definition Duration := Z.

(** ** ROS messages, with the fields the bridge reads *)

Record ros_Time := { sec : Z; nsec : Z }.

Record Header := { stamp : ros_Time; frame_id : string }.

Record geometry_Vector3 := { vx : double; vy : double; vz : double }.

Record geometry_Quaternion := { qx : double; qy : double; qz : double; qw : double }.

Record geometry_Pose := { position : geometry_Vector3; orientation : geometry_Quaternion }.

(** [nav_msgs::Odometry]; [odom_pose] is [msg->pose.pose]. *)
Record Odometry := {
  odom_header : Header;
  child_frame_id : string;
  odom_pose : geometry_Pose
}.

(** [sensor_msgs::NavSatStatus::STATUS_NO_FIX]. *)
Definition STATUS_NO_FIX : Z := -1.

(** [sensor_msgs::NavSatFix]; [status] is [msg->status.status]. *)
Record NavSatFix := {
  fix_header : Header;
  status : Z;
  latitude : double;
  longitude : double;
  altitude : double
}.

(** [sensor_msgs::Imu]; the two covariance fields are element [0] of the
    arrays, the only element the bridge reads. *)
Record Imu := {
  imu_header : Header;
  linear_acceleration_covariance0 : double;
  angular_velocity_covariance0 : double;
  linear_acceleration : geometry_Vector3;
  angular_velocity : geometry_Vector3
}.

(** ** Point clouds *)

(** [Eigen::Vector4f]: a point and, in component 3, its time relative to
    the end of the measurement. *)
Record Vector4f := { p_x : float; p_y : float; p_z : float; p_t : float }.

Definition TimedPointCloud := list Vector4f.

Record PointCloudWithIntensities := {
  points : TimedPointCloud;
  intensities : list float
}.

(** The PCL point types read by [HandlePointCloud2Message].  Their
    declarations are in [sensor_bridge.h]; the fields are those the source
    reads, with the types its arithmetic gives them: an integer count of
    nanoseconds [t], a [float] [time] and a [double] [timestamp]. *)
Record OusterPointXYZIRT := { ou_x : float; ou_y : float; ou_z : float; ou_t : Z }.

Record PointXYZIRT := { ve_x : float; ve_y : float; ve_z : float; ve_time : float }.

Record RsPointXYZIRT := { rs_x : float; rs_y : float; rs_z : float; rs_timestamp : double }.

Record PointXYZI := { pi_x : float; pi_y : float; pi_z : float; pi_intensity : float }.

(** ** CheckNoLeadingSlash *)

Definition CheckNoLeadingSlash (frame_id : string) : string :=
  if (0 <? String.length frame_id)%nat then
    match String.get 0 frame_id with
    | Some c =>
        if Ascii.eqb c "/"%char then
          if (1 <? String.length frame_id)%nat
          then String.substring 1 (String.length frame_id - 1) frame_id
          else frame_id
        else frame_id
    | None => frame_id
    end
  else frame_id.

(** ** Collaborators

    Everything [sensor_bridge.cc] calls and does not define: Eigen and
    [carto::transform] ([Rigid3d] and its operations), [carto::common]
    ([FromSeconds]), [carto::sensor] ([TransformTimedPointCloud]),
    [msg_conversion.h] and [time_conversion.h], PCL ([fromROSMsg] and the
    [isnan] and [isinf] tests on points) and [TfBridge::LookupToTracking],
    whose null result is [None]. *)

Class Collaborators := {
  Rigid3d : Type;
  Rigid3f : Type;
  Vector3d : Type;
  Vector3f : Type;
  Quaterniond : Type;
  rigid_mul : Rigid3d -> Rigid3d -> Rigid3d;
  rigid_inverse : Rigid3d -> Rigid3d;
  rigid_translation : Rigid3d -> Vector3d;
  rigid_rotation : Rigid3d -> Quaterniond;
  rigid_apply : Rigid3d -> Vector3d -> Vector3d;
  rigid_Translation : Vector3d -> Rigid3d;
  rigid_cast_float : Rigid3d -> Rigid3f;
  vector_cast_float : Vector3d -> Vector3f;
  vector_norm : Vector3d -> double;
  quaternion_rotate : Quaterniond -> Vector3d -> Vector3d;
  FromSeconds : double -> Duration;
  TransformTimedPointCloud : TimedPointCloud -> Rigid3f -> TimedPointCloud;
  LandmarkData : Type;
  LandmarkList : Type;
  LaserScan : Type;
  MultiEchoLaserScan : Type;
  PointCloud2 : Type;
  LaserScan_header : LaserScan -> Header;
  MultiEchoLaserScan_header : MultiEchoLaserScan -> Header;
  PointCloud2_header : PointCloud2 -> Header;
  FromRos : ros_Time -> Time;
  ToRigid3d : geometry_Pose -> Rigid3d;
  ToEigen : geometry_Vector3 -> Vector3d;
  ToLandmarkData : LandmarkList -> LandmarkData;
  ToPointCloudWithIntensities : LaserScan -> PointCloudWithIntensities * Time;
  ToPointCloudWithIntensities_multi_echo :
    MultiEchoLaserScan -> PointCloudWithIntensities * Time;
  ComputeLocalFrameFromLatLong : double -> double -> Rigid3d;
  LatLongAltToEcef : double -> double -> double -> Vector3d;
  fromROSMsg_ouster : PointCloud2 -> list OusterPointXYZIRT;
  fromROSMsg_velodyne : PointCloud2 -> list PointXYZIRT;
  fromROSMsg_robosense : PointCloud2 -> list RsPointXYZIRT;
  fromROSMsg_xyzi : PointCloud2 -> list PointXYZI;
  isnan_ouster : OusterPointXYZIRT -> bool;
  isinf_ouster : OusterPointXYZIRT -> bool;
  isnan_velodyne : PointXYZIRT -> bool;
  isinf_velodyne : PointXYZIRT -> bool;
  isnan_robosense : RsPointXYZIRT -> bool;
  isinf_robosense : RsPointXYZIRT -> bool;
  isnan_xyzi : PointXYZI -> bool;
  isinf_xyzi : PointXYZI -> bool;
  LookupToTracking : Time -> string -> option Rigid3d
}.

(** ** Lists as [std::vector] *)

(** The range constructor [vector(begin + b, begin + e)]. *)
Definition slice {A : Type} (b e : Z) (l : list A) : list A :=
  take (Z.to_nat (e - b)) (drop (Z.to_nat b) l).

(** A range-for loop that skips some elements and appends one value for
    each of the others. *)
Fixpoint emplace_loop {P A : Type} (skip : P -> bool) (mk : P -> A)
    (pts : list P) (out : list A) : list A :=
  match pts with
  | [] => out
  | point :: rest =>
      if skip point then emplace_loop skip mk rest out
      else emplace_loop skip mk rest (out ++ [mk point])
  end.

(** ** The bridge *)

Section SensorBridge.

Context `{C : Collaborators}.

(** *** Sensor records and the calls to the trajectory builder *)

Record OdometryData := { od_time : Time; od_pose : Rigid3d }.

Record ImuData := {
  imu_time : Time;
  imu_linear_acceleration : Vector3d;
  imu_angular_velocity : Vector3d
}.

Record FixedFramePoseData := { ffp_time : Time; ffp_pose : option Rigid3d }.

Record TimedPointCloudData := {
  tpc_time : Time;
  tpc_origin : Vector3f;
  tpc_ranges : TimedPointCloud
}.

(** The overloads of [TrajectoryBuilderInterface::AddSensorData]. *)
Inductive SensorData :=
| SD_Odometry (d : OdometryData)
| SD_Imu (d : ImuData)
| SD_FixedFramePose (d : FixedFramePoseData)
| SD_Landmark (d : LandmarkData)
| SD_TimedPointCloud (d : TimedPointCloudData).

(** One call [trajectory_builder_->AddSensorData(sensor_id, data)]. *)
Definition Call : Type := string * SensorData.

(** *** State

    The fields of [SensorBridge] that are its own; [tf_bridge_] and
    [trajectory_builder_] are collaborators. *)
Record SensorBridge := {
  num_subdivisions_per_laser_scan_ : Z;
  sensor_to_previous_subdivision_time_ : gmap string Time;
  ecef_to_local_frame_ : option Rigid3d
}.

(** The constructor. *)
Definition SensorBridge_new (num_subdivisions_per_laser_scan : Z) : SensorBridge :=
  {| num_subdivisions_per_laser_scan_ := num_subdivisions_per_laser_scan;
     sensor_to_previous_subdivision_time_ := ∅;
     ecef_to_local_frame_ := None |}.

(** *** Handlers as state transformers with a call log *)

Inductive outcome (A : Type) :=
| Done (a : A) (st : SensorBridge)
| Stopped.
Arguments Done {A} a st.
Arguments Stopped {A}.

Definition M (A : Type) : Type := SensorBridge -> list Call * outcome A.

Definition ret {A} (a : A) : M A := fun st => ([], Done a st).

Definition bind {A B} (m : M A) (f : A -> M B) : M B :=
  fun st =>
    match m st with
    | (calls, Done a st') =>
        let (calls', r) := f a st' in (calls ++ calls', r)
    | (calls, Stopped) => (calls, Stopped)
    end.

Definition get : M SensorBridge := fun st => ([], Done st st).
Definition put (st : SensorBridge) : M unit := fun _ => ([], Done tt st).

(** The process ends: a failed [CHECK] or undefined behaviour. *)
Definition stop {A} : M A := fun _ => ([], Stopped).

Definition CHECK (b : bool) : M unit := if b then ret tt else stop.

Definition AddSensorData (sensor_id : string) (data : SensorData) : M unit :=
  fun st => ([(sensor_id, data)], Done tt st).

(** The calls a handler makes and the state it leaves. *)
Definition calls {A} (r : list Call * outcome A) : list Call := r.1.

Definition final {A} (r : list Call * outcome A) : option SensorBridge :=
  match r.2 with
  | Done _ st => Some st
  | Stopped => None
  end.

End SensorBridge.

Arguments Done {C A} a st.
Arguments Stopped {C A}.

Declare Scope bridge_scope.
Delimit Scope bridge_scope with bridge.
Notation "'let*' x := m 'in' k" := (bind m (fun x => k))
  (at level 10, x name, m at level 99, k at level 200) : bridge_scope.
Notation "m ;; k" := (bind m (fun _ => k))
  (at level 100, k at level 200, right associativity) : bridge_scope.

Section Handlers.

Context `{C : Collaborators}.

Local Open Scope bridge_scope.

(** *** HandleRangefinder *)

Definition HandleRangefinder (sensor_id : string) (time : Time)
    (frame_id : string) (ranges : TimedPointCloud) : M unit :=
  match LookupToTracking time (CheckNoLeadingSlash frame_id) with
  | Some sensor_to_tracking =>
      AddSensorData sensor_id
        (SD_TimedPointCloud
           {| tpc_time := time;
              tpc_origin := vector_cast_float (rigid_translation sensor_to_tracking);
              tpc_ranges :=
                TransformTimedPointCloud ranges (rigid_cast_float sensor_to_tracking) |})
  | None => ret tt
  end.

(** *** Odometry *)

Definition ToOdometryData (msg : Odometry) : option OdometryData :=
  let time := FromRos (stamp (odom_header msg)) in
  match LookupToTracking time (CheckNoLeadingSlash (child_frame_id msg)) with
  | None => None
  | Some sensor_to_tracking =>
      Some {| od_time := time;
              od_pose := rigid_mul (ToRigid3d (odom_pose msg))
                                   (rigid_inverse sensor_to_tracking) |}
  end.

Definition HandleOdometryMessage (sensor_id : string) (msg : Odometry) : M unit :=
  match ToOdometryData msg with
  | Some odometry_data =>
      AddSensorData sensor_id
        (SD_Odometry {| od_time := od_time odometry_data;
                        od_pose := od_pose odometry_data |})
  | None => ret tt
  end.

(** *** NavSatFix *)

Definition HandleNavSatFixMessage (sensor_id : string) (msg : NavSatFix) : M unit :=
  let time := FromRos (stamp (fix_header msg)) in
  if status msg =? STATUS_NO_FIX then
    AddSensorData sensor_id
      (SD_FixedFramePose {| ffp_time := time; ffp_pose := None |})
  else
    let* st := get in
    (match ecef_to_local_frame_ st with
     | None =>
         put {| num_subdivisions_per_laser_scan_ := num_subdivisions_per_laser_scan_ st;
                sensor_to_previous_subdivision_time_ :=
                  sensor_to_previous_subdivision_time_ st;
                ecef_to_local_frame_ :=
                  Some (ComputeLocalFrameFromLatLong (latitude msg) (longitude msg)) |}
     | Some _ => ret tt
     end);;
    let* st := get in
    match ecef_to_local_frame_ st with
    | Some ecef_to_local_frame =>
        AddSensorData sensor_id
          (SD_FixedFramePose
             {| ffp_time := time;
                ffp_pose :=
                  Some (rigid_Translation
                          (rigid_apply ecef_to_local_frame
                             (LatLongAltToEcef (latitude msg) (longitude msg)
                                               (altitude msg)))) |})
    | None => stop
    end.

(** *** Landmarks *)

Definition HandleLandmarkMessage (sensor_id : string) (msg : LandmarkList) : M unit :=
  AddSensorData sensor_id (SD_Landmark (ToLandmarkData msg)).

(** *** IMU *)

Definition ToImuData (msg : Imu) : M (option ImuData) :=
  CHECK (negb (eqb (linear_acceleration_covariance0 msg) d_minus_1));;
  CHECK (negb (eqb (angular_velocity_covariance0 msg) d_minus_1));;
  let time := FromRos (stamp (imu_header msg)) in
  match LookupToTracking time (CheckNoLeadingSlash (frame_id (imu_header msg))) with
  | None => ret None
  | Some sensor_to_tracking =>
      CHECK (ltb (vector_norm (rigid_translation sensor_to_tracking)) d_1e_5);;
      ret (Some
             {| imu_time := time;
                imu_linear_acceleration :=
                  quaternion_rotate (rigid_rotation sensor_to_tracking)
                                    (ToEigen (linear_acceleration msg));
                imu_angular_velocity :=
                  quaternion_rotate (rigid_rotation sensor_to_tracking)
                                    (ToEigen (angular_velocity msg)) |})
  end.

Definition HandleImuMessage (sensor_id : string) (msg : Imu) : M unit :=
  let* imu_data := ToImuData msg in
  match imu_data with
  | Some d =>
      AddSensorData sensor_id
        (SD_Imu {| imu_time := imu_time d;
                   imu_linear_acceleration := imu_linear_acceleration d;
                   imu_angular_velocity := imu_angular_velocity d |})
  | None => ret tt
  end.

(** *** Laser scans *)

(** [start_index] and [end_index] of subdivision [i]: the product is a
    [size_t] product, the divisor the [int] member converted to
    [size_t]. *)
Definition start_index (size : Z) (num_subdivisions i : Z) : Z :=
  size_t_wrap (size * i) / size_t_wrap num_subdivisions.

Definition end_index (size : Z) (num_subdivisions i : Z) : Z :=
  size_t_wrap (size * (i + 1)) / size_t_wrap num_subdivisions.

(** [point[3] -= time_to_subdivision_end], a [float] decreased by a
    [double]. *)
Definition rebase (time_to_subdivision_end : double) (point : Vector4f) : Vector4f :=
  {| p_x := p_x point; p_y := p_y point; p_z := p_z point;
     p_t := to_float (dsub (to_double (p_t point)) time_to_subdivision_end) |}.

(** The body of the loop over [i].  Building the subdivision from a
    range that is not within the vector is undefined. *)
Definition HandleLaserScan_body (sensor_id : string) (time : Time)
    (frame_id : string) (pts : PointCloudWithIntensities)
    (num_subdivisions i : Z) : M unit :=
  let size := Z.of_nat (length (points pts)) in
  let start_index := start_index size num_subdivisions i in
  let end_index := end_index size num_subdivisions i in
  if negb ((start_index <=? end_index) && (end_index <=? size)) then stop
  else
    let subdivision := slice start_index end_index (points pts) in
    if start_index =? end_index then ret tt
    else
      match last subdivision with
      | None => stop
      | Some back =>
          let time_to_subdivision_end := to_double (p_t back) in
          let subdivision_time := time + FromSeconds time_to_subdivision_end in
          let* st := get in
          let ignored :=
            match sensor_to_previous_subdivision_time_ st !! sensor_id with
            | Some previous => previous >=? subdivision_time
            | None => false
            end in
          if ignored then ret tt
          else
            put {| num_subdivisions_per_laser_scan_ :=
                     num_subdivisions_per_laser_scan_ st;
                   sensor_to_previous_subdivision_time_ :=
                     <[sensor_id := subdivision_time]>
                       (sensor_to_previous_subdivision_time_ st);
                   ecef_to_local_frame_ := ecef_to_local_frame_ st |};;
            let subdivision := map (rebase time_to_subdivision_end) subdivision in
            (match last subdivision with
             | Some back => CHECK (eqb (p_t back) zero)
             | None => stop
             end);;
            HandleRangefinder sensor_id subdivision_time frame_id subdivision
      end.

(** [for (int i = 0; i != num_subdivisions_per_laser_scan_; ++i)], with
    [remaining] iterations to go. *)
Fixpoint HandleLaserScan_loop (remaining : nat) (sensor_id : string) (time : Time)
    (frame_id : string) (pts : PointCloudWithIntensities)
    (num_subdivisions i : Z) : M unit :=
  match remaining with
  | O => ret tt
  | S remaining' =>
      HandleLaserScan_body sensor_id time frame_id pts num_subdivisions i;;
      HandleLaserScan_loop remaining' sensor_id time frame_id pts
                           num_subdivisions (i + 1)
  end.

(** With a negative number of subdivisions [i] never equals it before
    [++i] overflows, which is undefined. *)
Definition HandleLaserScan (sensor_id : string) (time : Time)
    (frame_id : string) (pts : PointCloudWithIntensities) : M unit :=
  match last (points pts) with
  | None => ret tt
  | Some back =>
      CHECK (leb (p_t back) zero);;
      let* st := get in
      let num_subdivisions := num_subdivisions_per_laser_scan_ st in
      if num_subdivisions <? 0 then stop
      else
        HandleLaserScan_loop (Z.to_nat num_subdivisions) sensor_id time frame_id
                             pts num_subdivisions 0
  end.

Definition HandleLaserScanMessage (sensor_id : string) (msg : LaserScan) : M unit :=
  let (point_cloud, time) := ToPointCloudWithIntensities msg in
  HandleLaserScan sensor_id time (frame_id (LaserScan_header msg)) point_cloud.

Definition HandleMultiEchoLaserScanMessage (sensor_id : string)
    (msg : MultiEchoLaserScan) : M unit :=
  let (point_cloud, time) := ToPointCloudWithIntensities_multi_echo msg in
  HandleLaserScan sensor_id time (frame_id (MultiEchoLaserScan_header msg)) point_cloud.

(** *** PointCloud2 *)

(** [point.t * 1e-9f]. *)
Definition ouster_seconds (point : OusterPointXYZIRT) : float :=
  fmul (float_of_Z (ou_t point)) f_1e_9.

(** [points.back()] of an empty vector is undefined. *)
Definition HandlePointCloud2Message (sensor_id : string) (msg : PointCloud2)
    (sensor_type : string) : M unit :=
  let header := PointCloud2_header msg in
  if String.eqb sensor_type "ouster" then
    let pcl_point_cloud := fromROSMsg_ouster msg in
    match last pcl_point_cloud with
    | None => stop
    | Some back =>
        let rel_time_last := to_double (ouster_seconds back) in
        let point_cloud :=
          emplace_loop
            (fun point => isnan_ouster point || isinf_ouster point)
            (fun point =>
               {| p_x := ou_x point; p_y := ou_y point; p_z := ou_z point;
                  p_t := to_float (dsub (to_double (ouster_seconds point))
                                        rel_time_last) |})
            pcl_point_cloud [] in
        let point_cloud_stamp := FromRos (stamp header) + FromSeconds rel_time_last in
        HandleRangefinder sensor_id point_cloud_stamp (frame_id header) point_cloud
    end
  else if String.eqb sensor_type "velodyne" then
    let pcl_point_cloud := fromROSMsg_velodyne msg in
    match last pcl_point_cloud with
    | None => stop
    | Some back =>
        let rel_time_last := to_double (ve_time back) in
        let point_cloud :=
          emplace_loop
            (fun point => isnan_velodyne point || isinf_velodyne point)
            (fun point =>
               {| p_x := ve_x point; p_y := ve_y point; p_z := ve_z point;
                  p_t := to_float (dsub (to_double (ve_time point)) rel_time_last) |})
            pcl_point_cloud [] in
        let point_cloud_stamp := FromRos (stamp header) + FromSeconds rel_time_last in
        HandleRangefinder sensor_id point_cloud_stamp (frame_id header) point_cloud
    end
  else if String.eqb sensor_type "robosense" then
    let pcl_point_cloud := fromROSMsg_robosense msg in
    match last pcl_point_cloud with
    | None => stop
    | Some back =>
        let rel_time_last := rs_timestamp back in
        let point_cloud :=
          emplace_loop
            (fun point => isnan_robosense point || isinf_robosense point)
            (fun point =>
               {| p_x := rs_x point; p_y := rs_y point; p_z := rs_z point;
                  p_t := to_float (dsub (rs_timestamp point) rel_time_last) |})
            pcl_point_cloud [] in
        let point_cloud_stamp := FromRos (stamp header) in
        HandleRangefinder sensor_id point_cloud_stamp (frame_id header) point_cloud
    end
  else
    let pcl_point_cloud := fromROSMsg_xyzi msg in
    let point_cloud :=
      emplace_loop
        (fun point => isnan_xyzi point || isinf_xyzi point)
        (fun point =>
           {| p_x := pi_x point; p_y := pi_y point; p_z := pi_z point; p_t := zero |})
        pcl_point_cloud [] in
    let point_cloud_stamp := FromRos (stamp header) in
    HandleRangefinder sensor_id point_cloud_stamp (frame_id header) point_cloud.

(** *** Message histories *)

Inductive Message :=
| OdometryMessage (sensor_id : string) (msg : Odometry)
| NavSatFixMessage (sensor_id : string) (msg : NavSatFix)
| LandmarkMessage (sensor_id : string) (msg : LandmarkList)
| ImuMessage (sensor_id : string) (msg : Imu)
| LaserScanMessage (sensor_id : string) (msg : LaserScan)
| MultiEchoLaserScanMessage (sensor_id : string) (msg : MultiEchoLaserScan)
| PointCloud2Message (sensor_id : string) (msg : PointCloud2) (sensor_type : string).

Definition Handle (m : Message) : M unit :=
  match m with
  | OdometryMessage sensor_id msg => HandleOdometryMessage sensor_id msg
  | NavSatFixMessage sensor_id msg => HandleNavSatFixMessage sensor_id msg
  | LandmarkMessage sensor_id msg => HandleLandmarkMessage sensor_id msg
  | ImuMessage sensor_id msg => HandleImuMessage sensor_id msg
  | LaserScanMessage sensor_id msg => HandleLaserScanMessage sensor_id msg
  | MultiEchoLaserScanMessage sensor_id msg =>
      HandleMultiEchoLaserScanMessage sensor_id msg
  | PointCloud2Message sensor_id msg sensor_type =>
      HandlePointCloud2Message sensor_id msg sensor_type
  end.

(** The bridge handles the messages of a history one after the other;
    the result pairs each message with the calls its handler made.  A
    handler that stops ends the history. *)
Fixpoint run (history : list Message) (st : SensorBridge)
    : list (Message * list Call) * option SensorBridge :=
  match history with
  | [] => ([], Some st)
  | m :: rest =>
      let r := Handle m st in
      match final r with
      | Some st' =>
          let (log, st'') := run rest st' in ((m, calls r) :: log, st'')
      | None => ([(m, calls r)], None)
      end
  end.

End Handlers.

(** ** Notions used to state the properties *)

Section Notions.

Context `{C : Collaborators}.

(** Subdivision [i] of a scan of which [num_subdivisions] are made, as
    the body of the loop builds it. *)
Definition subdivision (pts : TimedPointCloud) (num_subdivisions i : Z)
    : TimedPointCloud :=
  let size := Z.of_nat (length pts) in
  slice (start_index size num_subdivisions i) (end_index size num_subdivisions i) pts.

(** The record [HandleRangefinder] hands over when the lookup gives
    [sensor_to_tracking]. *)
Definition rangefinder_call (sensor_id : string) (time : Time)
    (sensor_to_tracking : Rigid3d) (ranges : TimedPointCloud) : Call :=
  (sensor_id,
   SD_TimedPointCloud
     {| tpc_time := time;
        tpc_origin := vector_cast_float (rigid_translation sensor_to_tracking);
        tpc_ranges :=
          TransformTimedPointCloud ranges (rigid_cast_float sensor_to_tracking) |}).

(** The record of an IMU message whose frame is at [sensor_to_tracking]. *)
Definition imu_call (sensor_id : string) (msg : Imu) (sensor_to_tracking : Rigid3d)
    : Call :=
  (sensor_id,
   SD_Imu
     {| imu_time := FromRos (stamp (imu_header msg));
        imu_linear_acceleration :=
          quaternion_rotate (rigid_rotation sensor_to_tracking)
                            (ToEigen (linear_acceleration msg));
        imu_angular_velocity :=
          quaternion_rotate (rigid_rotation sensor_to_tracking)
                            (ToEigen (angular_velocity msg)) |}).

(** The transform lookups of an odometry and of an IMU message. *)
Definition odometry_lookup (msg : Odometry) : option Rigid3d :=
  LookupToTracking (FromRos (stamp (odom_header msg)))
                   (CheckNoLeadingSlash (child_frame_id msg)).

Definition imu_lookup (msg : Imu) : option Rigid3d :=
  LookupToTracking (FromRos (stamp (imu_header msg)))
                   (CheckNoLeadingSlash (frame_id (imu_header msg))).

(** The two covariance checks of [ToImuData]. *)
Definition imu_has_measurements (msg : Imu) : bool :=
  negb (eqb (linear_acceleration_covariance0 msg) d_minus_1) &&
  negb (eqb (angular_velocity_covariance0 msg) d_minus_1).

(** The check that the IMU is at the origin of the tracking frame. *)
Definition imu_colocated (sensor_to_tracking : Rigid3d) : bool :=
  ltb (vector_norm (rigid_translation sensor_to_tracking)) d_1e_5.

(** The times of the point clouds handed over for one sensor. *)
Definition point_cloud_times (sensor_id : string) (cs : list Call) : list Time :=
  flat_map
    (fun c : Call =>
       match c.2 with
       | SD_TimedPointCloud d =>
           if String.eqb c.1 sensor_id then [tpc_time d] else []
       | _ => []
       end) cs.

Definition is_laser_scan (m : Message) : bool :=
  match m with
  | LaserScanMessage _ _ | MultiEchoLaserScanMessage _ _ => true
  | _ => false
  end.

(** The times of the subdivisions handed over for one sensor in the
    course of a history. *)
Definition subdivision_times (sensor_id : string) (log : list (Message * list Call))
    : list Time :=
  flat_map
    (fun e : Message * list Call =>
       if is_laser_scan e.1 then point_cloud_times sensor_id e.2 else []) log.

Definition previous_subdivision_time (st : SensorBridge) (sensor_id : string)
    : option Time :=
  sensor_to_previous_subdivision_time_ st !! sensor_id.

(** The state after [sensor_to_previous_subdivision_time_[sensor_id] =
    subdivision_time]. *)
Definition record_subdivision_time (st : SensorBridge) (sensor_id : string)
    (subdivision_time : Time) : SensorBridge :=
  {| num_subdivisions_per_laser_scan_ := num_subdivisions_per_laser_scan_ st;
     sensor_to_previous_subdivision_time_ :=
       <[sensor_id := subdivision_time]> (sensor_to_previous_subdivision_time_ st);
     ecef_to_local_frame_ := ecef_to_local_frame_ st |}.

(** The test that makes the loop ignore a subdivision. *)
Definition ignored (st : SensorBridge) (sensor_id : string) (subdivision_time : Time)
    : bool :=
  match previous_subdivision_time st sensor_id with
  | Some previous => previous >=? subdivision_time
  | None => false
  end.

(** A time is after the one recorded, if one is recorded. *)
Definition after (previous : option Time) (t : Time) : Prop :=
  match previous with
  | Some p => p < t
  | None => True
  end.

(** A time is recorded, or a later one is. *)
Definition reached (recorded : option Time) (t : Time) : Prop :=
  match recorded with
  | Some p => t <= p
  | None => False
  end.

(** A handler forwards point clouds for [sensor_id] in strictly increasing
    order of time, all of them after the time recorded when it starts, and
    leaves recorded a time that none of them exceeds and that is not
    before the one it found. *)
Definition ordered (sensor_id : string) {A : Type} (m : M A) : Prop :=
  forall st : SensorBridge,
    let times := point_cloud_times sensor_id (calls (m st)) in
    StronglySorted Z.lt times /\
    Forall (after (previous_subdivision_time st sensor_id)) times /\
    forall st', final (m st) = Some st' ->
      (forall t, reached (previous_subdivision_time st sensor_id) t ->
                 reached (previous_subdivision_time st' sensor_id) t) /\
      Forall (reached (previous_subdivision_time st' sensor_id)) times.

(** A handler leaves a part of the state as it found it. *)
Definition preserves {X A : Type} (part : SensorBridge -> X) (m : M A) : Prop :=
  forall st st', final (m st) = Some st' -> part st' = part st.

(** A handler that returns the state it is given and whose calls do not
    depend on it. *)
Definition state_free (m : M unit) : Prop :=
  exists (cs : list Call) (completes : bool),
    forall st, m st = (cs, if completes then Done tt st else Stopped).

(** The first message of a history that carries a fix. *)
Fixpoint first_fix (history : list Message) : option NavSatFix :=
  match history with
  | [] => None
  | NavSatFixMessage _ msg :: rest =>
      if status msg =? STATUS_NO_FIX then first_fix rest else Some msg
  | _ :: rest => first_fix rest
  end.

Definition local_frame_of (msg : NavSatFix) : Rigid3d :=
  ComputeLocalFrameFromLatLong (latitude msg) (longitude msg).

(** The frame in use once a history is handled from [st]. *)
Definition frame_in_use (st : SensorBridge) (history : list Message) : option Rigid3d :=
  match ecef_to_local_frame_ st with
  | Some frame => Some frame
  | None => local_frame_of <$> first_fix history
  end.

(** The record of a NavSatFix message converted in [frame]. *)
Definition fixed_frame_pose_call (sensor_id : string) (msg : NavSatFix)
    (frame : option Rigid3d) : Call :=
  (sensor_id,
   SD_FixedFramePose
     {| ffp_time := FromRos (stamp (fix_header msg));
        ffp_pose :=
          (fun ecef_to_local_frame =>
             rigid_Translation
               (rigid_apply ecef_to_local_frame
                  (LatLongAltToEcef (latitude msg) (longitude msg) (altitude msg))))
          <$> frame |}).

Definition set_ecef_to_local_frame (st : SensorBridge) (frame : Rigid3d) : SensorBridge :=
  {| num_subdivisions_per_laser_scan_ := num_subdivisions_per_laser_scan_ st;
     sensor_to_previous_subdivision_time_ := sensor_to_previous_subdivision_time_ st;
     ecef_to_local_frame_ := Some frame |}.

(** The messages whose handler neither reads nor writes the bridge's own
    fields. *)
Definition keeps_no_state (m : Message) : bool :=
  match m with
  | LaserScanMessage _ _ | MultiEchoLaserScanMessage _ _ => false
  | NavSatFixMessage _ msg => status msg =? STATUS_NO_FIX
  | _ => true
  end.

(** The points [HandlePointCloud2Message] keeps and the time it gives
    each. *)
Definition ouster_cloud (pcl_point_cloud : list OusterPointXYZIRT)
    (back : OusterPointXYZIRT) : TimedPointCloud :=
  map (fun point =>
         {| p_x := ou_x point; p_y := ou_y point; p_z := ou_z point;
            p_t := to_float (dsub (to_double (ouster_seconds point))
                                  (to_double (ouster_seconds back))) |})
      (List.filter (fun point => negb (isnan_ouster point || isinf_ouster point))
                   pcl_point_cloud).

Definition velodyne_cloud (pcl_point_cloud : list PointXYZIRT) (back : PointXYZIRT)
    : TimedPointCloud :=
  map (fun point =>
         {| p_x := ve_x point; p_y := ve_y point; p_z := ve_z point;
            p_t := to_float (dsub (to_double (ve_time point))
                                  (to_double (ve_time back))) |})
      (List.filter (fun point => negb (isnan_velodyne point || isinf_velodyne point))
                   pcl_point_cloud).

Definition robosense_cloud (pcl_point_cloud : list RsPointXYZIRT) (back : RsPointXYZIRT)
    : TimedPointCloud :=
  map (fun point =>
         {| p_x := rs_x point; p_y := rs_y point; p_z := rs_z point;
            p_t := to_float (dsub (rs_timestamp point) (rs_timestamp back)) |})
      (List.filter (fun point => negb (isnan_robosense point || isinf_robosense point))
                   pcl_point_cloud).

Definition xyzi_cloud (pcl_point_cloud : list PointXYZI) : TimedPointCloud :=
  map (fun point =>
         {| p_x := pi_x point; p_y := pi_y point; p_z := pi_z point; p_t := zero |})
      (List.filter (fun point => negb (isnan_xyzi point || isinf_xyzi point))
                   pcl_point_cloud).

End Notions.

Arguments run {C} history st.
Arguments Handle {C} m st.

(** ** Messages and the records made of them *)

Section Routing.

Context `{C : Collaborators}.

(** The sensor id a message is handled under. *)
Definition sensor_id_of (m : Message) : string :=
  match m with
  | OdometryMessage sensor_id _ | NavSatFixMessage sensor_id _
  | LandmarkMessage sensor_id _ | ImuMessage sensor_id _
  | LaserScanMessage sensor_id _ | MultiEchoLaserScanMessage sensor_id _
  | PointCloud2Message sensor_id _ _ => sensor_id
  end.

(** The overload of [AddSensorData] that the handler of a message calls. *)
Definition record_of (m : Message) (data : SensorData) : bool :=
  match m, data with
  | OdometryMessage _ _, SD_Odometry _ => true
  | NavSatFixMessage _ _, SD_FixedFramePose _ => true
  | LandmarkMessage _ _, SD_Landmark _ => true
  | ImuMessage _ _, SD_Imu _ => true
  | LaserScanMessage _ _, SD_TimedPointCloud _ => true
  | MultiEchoLaserScanMessage _ _, SD_TimedPointCloud _ => true
  | PointCloud2Message _ _ _, SD_TimedPointCloud _ => true
  | _, _ => false
  end.

(** A laser scan of the sensor [sensor_id]. *)
Definition scan_of (sensor_id : string) (m : Message) : bool :=
  is_laser_scan m && String.eqb (sensor_id_of m) sensor_id.

(** The time [HandleLaserScan] gives a subdivision that ends in [back]. *)
Definition subdivision_time_of (time : Time) (back : Vector4f) : Time :=
  time + FromSeconds (to_double (p_t back)).

End Routing.

(** ** A transform tree of translations

    An instance of the collaborators on which the handlers run: every
    frame is a translate of the tracking frame, so a rigid transform is
    its translation and every rotation is the identity.  [FromRos] and
    [FromSeconds] are cartographer's: ticks of 100 ns, the first counted
    from the epoch of the universal time scale. *)

Module Translations.

Record vec3 := { X : spec_float; Y : spec_float; Z_ : spec_float }.

Definition vadd (a b : vec3) : vec3 :=
  {| X := dadd (X a) (X b); Y := dadd (Y a) (Y b); Z_ := dadd (Z_ a) (Z_ b) |}.

Definition vneg (a : vec3) : vec3 :=
  {| X := SFopp (X a); Y := SFopp (Y a); Z_ := SFopp (Z_ a) |}.

Definition vcast (a : vec3) : vec3 :=
  {| X := to_float (X a); Y := to_float (Y a); Z_ := to_float (Z_ a) |}.

Definition vnorm (a : vec3) : double :=
  dsqrt (dadd (dadd (dmul (X a) (X a)) (dmul (Y a) (Y a))) (dmul (Z_ a) (Z_ a))).

Definition transform_point (t : vec3) (p : Vector4f) : Vector4f :=
  {| p_x := fadd (X t) (p_x p); p_y := fadd (Y t) (p_y p);
     p_z := fadd (Z_ t) (p_z p); p_t := p_t p |}.

(** Truncation of a floating-point value to an integer. *)
Definition truncate (x : spec_float) : Z :=
  match x with
  | S754_finite s m e => cond_Zopp s (Z.shiftl (Z.pos m) e)
  | _ => 0
  end.

Definition from_seconds (seconds : double) : Duration :=
  truncate (dmul seconds (double_of_Z 10000000)).

Definition kUtsEpochOffsetFromUnixEpochInSeconds : Z := 719162 * 24 * 60 * 60.

Definition from_ros (t : ros_Time) : Time :=
  (sec t + kUtsEpochOffsetFromUnixEpochInSeconds) * 10000000 + (nsec t + 50) / 100.

Definition origin : vec3 := {| X := zero; Y := zero; Z_ := zero |}.

(** The frames known to the transform buffer: ["laser"] and ["imu"]
    sit on the tracking frame, ["base_link"] one metre along [x]. *)
Definition lookup_frame (time : Time) (frame : string) : option vec3 :=
  if String.eqb frame "laser" then Some origin
  else if String.eqb frame "imu" then Some origin
  else if String.eqb frame "base_link" then
    Some {| X := double_of_Z 1; Y := zero; Z_ := zero |}
  else None.

Definition is_nan (x : spec_float) : bool :=
  match x with S754_nan => true | _ => false end.

Definition is_inf (x : spec_float) : bool :=
  match x with S754_infinity _ => true | _ => false end.

(** A laser scan message and a point cloud message carry what their
    conversion yields. *)
Record scan := { scan_header : Header; scan_cloud : PointCloudWithIntensities * Time }.

Record cloud := {
  cloud_header : Header;
  cloud_ouster : list OusterPointXYZIRT;
  cloud_velodyne : list PointXYZIRT;
  cloud_robosense : list RsPointXYZIRT;
  cloud_xyzi : list PointXYZI
}.

#[global] Instance collaborators : Collaborators := {|
  Rigid3d := vec3;
  Rigid3f := vec3;
  Vector3d := vec3;
  Vector3f := vec3;
  Quaterniond := unit;
  rigid_mul := vadd;
  rigid_inverse := vneg;
  rigid_translation := fun t => t;
  rigid_rotation := fun _ => tt;
  rigid_apply := vadd;
  rigid_Translation := fun v => v;
  rigid_cast_float := vcast;
  vector_cast_float := vcast;
  vector_norm := vnorm;
  quaternion_rotate := fun _ v => v;
  FromSeconds := from_seconds;
  TransformTimedPointCloud := fun ranges t => map (transform_point t) ranges;
  LandmarkData := list string;
  LandmarkList := list string;
  LaserScan := scan;
  MultiEchoLaserScan := scan;
  PointCloud2 := cloud;
  LaserScan_header := scan_header;
  MultiEchoLaserScan_header := scan_header;
  PointCloud2_header := cloud_header;
  FromRos := from_ros;
  ToRigid3d := fun pose => {| X := vx (position pose); Y := vy (position pose);
                              Z_ := vz (position pose) |};
  ToEigen := fun v => {| X := vx v; Y := vy v; Z_ := vz v |};
  ToLandmarkData := fun l => l;
  ToPointCloudWithIntensities := scan_cloud;
  ToPointCloudWithIntensities_multi_echo := scan_cloud;
  ComputeLocalFrameFromLatLong := fun lat long =>
    {| X := SFopp lat; Y := SFopp long; Z_ := zero |};
  LatLongAltToEcef := fun lat long alt => {| X := lat; Y := long; Z_ := alt |};
  fromROSMsg_ouster := cloud_ouster;
  fromROSMsg_velodyne := cloud_velodyne;
  fromROSMsg_robosense := cloud_robosense;
  fromROSMsg_xyzi := cloud_xyzi;
  isnan_ouster := fun p => is_nan (ou_x p) || is_nan (ou_y p) || is_nan (ou_z p);
  isinf_ouster := fun p => is_inf (ou_x p) || is_inf (ou_y p) || is_inf (ou_z p);
  isnan_velodyne := fun p => is_nan (ve_x p) || is_nan (ve_y p) || is_nan (ve_z p);
  isinf_velodyne := fun p => is_inf (ve_x p) || is_inf (ve_y p) || is_inf (ve_z p);
  isnan_robosense := fun p => is_nan (rs_x p) || is_nan (rs_y p) || is_nan (rs_z p);
  isinf_robosense := fun p => is_inf (rs_x p) || is_inf (rs_y p) || is_inf (rs_z p);
  isnan_xyzi := fun p => is_nan (pi_x p) || is_nan (pi_y p) || is_nan (pi_z p);
  isinf_xyzi := fun p => is_inf (pi_x p) || is_inf (pi_y p) || is_inf (pi_z p);
  LookupToTracking := lookup_frame
|}.

(** *** Sample messages *)

(** The float [n / 4]. *)
Definition quarter (n : Z) : float := fdiv (float_of_Z n) (float_of_Z 4).

Definition pt (x : Z) (t : Z) : Vector4f :=
  {| p_x := float_of_Z x; p_y := zero; p_z := zero; p_t := quarter t |}.

Definition header_at (s : Z) (frame : string) : Header :=
  {| stamp := {| sec := s; nsec := 0 |}; frame_id := frame |}.

(** Four points taken at [-0.75], [-0.5], [-0.25] and [0] seconds before
    the end of the scan. *)
Definition scan4 : scan :=
  {| scan_header := header_at 100 "/laser";
     scan_cloud :=
       ({| points := [pt 1 (-3); pt 2 (-2); pt 3 (-1); pt 4 0];
           intensities := [zero; zero; zero; zero] |},
        from_ros {| sec := 100; nsec := 0 |}) |}.

Definition bridge2 : SensorBridge := SensorBridge_new 2.

Definition vector3 (x y z : Z) : geometry_Vector3 :=
  {| vx := double_of_Z x; vy := double_of_Z y; vz := double_of_Z z |}.

Definition odometry1 : Odometry :=
  {| odom_header := header_at 100 "odom";
     child_frame_id := "/base_link";
     odom_pose :=
       {| position := vector3 5 0 0;
          orientation := {| qx := zero; qy := zero; qz := zero; qw := double_of_Z 1 |} |} |}.

Definition odometry_unknown_frame : Odometry :=
  {| odom_header := header_at 100 "odom";
     child_frame_id := "wheel";
     odom_pose := odom_pose odometry1 |}.

Definition imu_at (frame : string) : Imu :=
  {| imu_header := header_at 100 frame;
     linear_acceleration_covariance0 := zero;
     angular_velocity_covariance0 := zero;
     linear_acceleration := vector3 0 0 10;
     angular_velocity := vector3 0 0 1 |}.

Definition STATUS_FIX : Z := 0.

Definition fix_at (s : Z) (st : Z) (lat long : Z) : NavSatFix :=
  {| fix_header := header_at s "gps";
     status := st;
     latitude := double_of_Z lat;
     longitude := double_of_Z long;
     altitude := zero |}.

(** A cloud of three points, the second of them with a NaN coordinate. *)
Definition cloud3 : cloud :=
  {| cloud_header := header_at 100 "laser";
     cloud_ouster :=
       [ {| ou_x := float_of_Z 1; ou_y := zero; ou_z := zero; ou_t := 0 |};
         {| ou_x := S754_nan; ou_y := zero; ou_z := zero; ou_t := 1000000 |};
         {| ou_x := float_of_Z 3; ou_y := zero; ou_z := zero; ou_t := 2000000 |} ];
     cloud_velodyne :=
       [ {| ve_x := float_of_Z 1; ve_y := zero; ve_z := zero; ve_time := quarter 0 |};
         {| ve_x := S754_nan; ve_y := zero; ve_z := zero; ve_time := quarter 1 |};
         {| ve_x := float_of_Z 3; ve_y := zero; ve_z := zero; ve_time := quarter 2 |} ];
     cloud_robosense :=
       [ {| rs_x := float_of_Z 1; rs_y := zero; rs_z := zero;
            rs_timestamp := double_of_Z 98 |};
         {| rs_x := S754_nan; rs_y := zero; rs_z := zero;
            rs_timestamp := double_of_Z 99 |};
         {| rs_x := float_of_Z 3; rs_y := zero; rs_z := zero;
            rs_timestamp := double_of_Z 100 |} ];
     cloud_xyzi :=
       [ {| pi_x := float_of_Z 1; pi_y := zero; pi_z := zero; pi_intensity := zero |};
         {| pi_x := S754_nan; pi_y := zero; pi_z := zero; pi_intensity := zero |};
         {| pi_x := float_of_Z 3; pi_y := zero; pi_z := zero; pi_intensity := zero |} ] |}.

(** The scan [scan4] as [HandleLaserScan] receives it. *)
Definition cloud4 : PointCloudWithIntensities := (scan_cloud scan4).1.

Definition time4 : Time := (scan_cloud scan4).2.

(** The first subdivision of [scan4] when two are made, as it is
    forwarded. *)
Definition first_half : Call :=
  rangefinder_call "scan" (time4 + from_seconds (to_double (quarter (-2)))) origin
    (map (rebase (to_double (quarter (-2)))) [pt 1 (-3); pt 2 (-2)]).

Definition second_half : Call :=
  rangefinder_call "scan" time4 origin
    (map (rebase (to_double (quarter 0))) [pt 3 (-1); pt 4 0]).

(** A state in which the end of [scan4] is recorded for its sensor. *)
Definition recorded4 : SensorBridge := record_subdivision_time bridge2 "scan" time4.

Definition metre_along_x : vec3 := {| X := double_of_Z 1; Y := zero; Z_ := zero |}.

Definition fixes : list Message :=
  [NavSatFixMessage "gps" (fix_at 1 STATUS_NO_FIX 10 20);
   NavSatFixMessage "gps" (fix_at 2 STATUS_FIX 30 40);
   NavSatFixMessage "gps" (fix_at 3 STATUS_FIX 50 60)].

End Translations.

(** ** More samples on the tree of translations *)

Module Samples.

(** A bridge that makes one subdivision of a scan. *)
Definition bridge1 : SensorBridge := SensorBridge_new 1.

(** The state [scan4] leaves when two subdivisions are made of it: both
    halves are recorded, one after the other. *)
Definition halves_recorded : SensorBridge :=
  record_subdivision_time
    (record_subdivision_time Translations.bridge2 "scan"
       (subdivision_time_of Translations.time4 (Translations.pt 2 (-2))))
    "scan" (subdivision_time_of Translations.time4 (Translations.pt 4 0)).

(** The state that the NavSatFix messages [fixes] leave. *)
Definition frame_set : SensorBridge :=
  set_ecef_to_local_frame Translations.bridge2
    (local_frame_of (Translations.fix_at 2 Translations.STATUS_FIX 30 40)).

Definition odometry_record : Call :=
  ("odom"%string,
   SD_Odometry
     {| od_time := Translations.from_ros {| sec := 100; nsec := 0 |};
        od_pose := Translations.vadd (ToRigid3d (odom_pose Translations.odometry1))
                     (Translations.vneg Translations.metre_along_x) |}).

End Samples.

(** * Properties *)

(** ** CheckNoLeadingSlash *)

Lemma substring_all (s : string) : String.substring 0 (String.length s) s = s.
Proof. induction s as [|c s IH]; simpl; [reflexivity | now rewrite IH]. Qed.

Lemma CheckNoLeadingSlash_slash (c : ascii) (rest : string) :
  CheckNoLeadingSlash (String "/" (String c rest)) = String c rest.
Proof.
  unfold CheckNoLeadingSlash. cbn [String.length Nat.ltb Nat.leb String.get].
  rewrite Ascii.eqb_refl. cbn [String.substring Nat.sub].
  now rewrite substring_all.
Qed.

Lemma CheckNoLeadingSlash_other (c : ascii) (rest : string) :
  c <> "/"%char -> CheckNoLeadingSlash (String c rest) = String c rest.
Proof.
  intros Hc. unfold CheckNoLeadingSlash. cbn [String.length Nat.ltb Nat.leb String.get].
  apply Ascii.eqb_neq in Hc. now rewrite Hc.
Qed.

(** C10: [CheckNoLeadingSlash] removes exactly one leading ['/'] from a
    frame id that begins with ['/'] and is longer than one character, and
    returns every other frame id (the empty one, ["/"] itself, one that
    does not begin with ['/']) unchanged. *)
Theorem CheckNoLeadingSlash_spec (frame_id : string) :
  (forall rest : string,
      frame_id = String "/" rest -> (1 < String.length frame_id)%nat ->
      CheckNoLeadingSlash frame_id = rest) /\
  ((frame_id = EmptyString \/ frame_id = String "/" EmptyString \/
    String.get 0 frame_id <> Some "/"%char) ->
   CheckNoLeadingSlash frame_id = frame_id).
Proof.
  split.
  - intros rest -> Hlen. destruct rest as [|c rest]; simpl in Hlen; [lia|].
    apply CheckNoLeadingSlash_slash.
  - intros [-> | [-> | Hget]]; [reflexivity | reflexivity |].
    destruct frame_id as [|c rest]; [reflexivity|].
    apply CheckNoLeadingSlash_other. intros ->. now apply Hget.
Qed.

(** The three cases on ["//laser"], ["/"] and ["laser/"]. *)
Lemma CheckNoLeadingSlash_spec_witness :
  CheckNoLeadingSlash "//laser" = "/laser"%string /\
  CheckNoLeadingSlash "/" = "/"%string /\
  CheckNoLeadingSlash "laser/" = "laser/"%string.
Proof.
  split; [|split].
  - apply (proj1 (CheckNoLeadingSlash_spec "//laser") "/laser"%string);
      [reflexivity | simpl; lia].
  - apply (proj2 (CheckNoLeadingSlash_spec "/")). right; left; reflexivity.
  - apply (proj2 (CheckNoLeadingSlash_spec "laser/")). right; right. discriminate.
Defined.

(** ** The handlers that only convert *)

Section Conversion.

Context `{C : Collaborators}.

Lemma HandleRangefinder_found (sensor_id : string) (time : Time) (frame_id : string)
    (ranges : TimedPointCloud) (st : SensorBridge) (T : Rigid3d) :
  LookupToTracking time (CheckNoLeadingSlash frame_id) = Some T ->
  HandleRangefinder sensor_id time frame_id ranges st =
  ([rangefinder_call sensor_id time T ranges], Done tt st).
Proof. intros H. unfold HandleRangefinder. now rewrite H. Qed.

Lemma HandleRangefinder_null (sensor_id : string) (time : Time) (frame_id : string)
    (ranges : TimedPointCloud) (st : SensorBridge) :
  LookupToTracking time (CheckNoLeadingSlash frame_id) = None ->
  HandleRangefinder sensor_id time frame_id ranges st = ([], Done tt st).
Proof. intros H. unfold HandleRangefinder. now rewrite H. Qed.

Lemma HandleImuMessage_cases (sensor_id : string) (msg : Imu) (st : SensorBridge) :
  HandleImuMessage sensor_id msg st =
  if imu_has_measurements msg then
    match imu_lookup msg with
    | None => ([], Done tt st)
    | Some T =>
        if imu_colocated T then ([imu_call sensor_id msg T], Done tt st)
        else ([], Stopped)
    end
  else ([], Stopped).
Proof.
  unfold HandleImuMessage, ToImuData, imu_has_measurements, imu_lookup, imu_colocated,
    imu_call, bind, CHECK.
  destruct (negb (eqb (linear_acceleration_covariance0 msg) d_minus_1)); [|reflexivity].
  destruct (negb (eqb (angular_velocity_covariance0 msg) d_minus_1)); [|reflexivity].
  cbn.
  destruct (LookupToTracking _ _) as [T|]; [|reflexivity].
  now destruct (ltb _ _).
Qed.

(** C7: when the transform lookup of an odometry message succeeds,
    [ToOdometryData] returns the record whose time is the header stamp
    converted by [FromRos] and whose pose is the message's pose composed
    with the inverse of the sensor-to-tracking transform at that time. *)
Theorem ToOdometryData_found (msg : Odometry) (sensor_to_tracking : Rigid3d) :
  LookupToTracking (FromRos (stamp (odom_header msg)))
                   (CheckNoLeadingSlash (child_frame_id msg)) = Some sensor_to_tracking ->
  ToOdometryData msg =
  Some {| od_time := FromRos (stamp (odom_header msg));
          od_pose := rigid_mul (ToRigid3d (odom_pose msg))
                               (rigid_inverse sensor_to_tracking) |}.
Proof. intros H. unfold ToOdometryData. now rewrite H. Qed.

(** C5: a record [HandleRangefinder] forwards carries the points
    transformed by the sensor-to-tracking transform looked up at the
    measurement time and, as origin, that transform's translation, and it
    is forwarded whenever the lookup succeeds; a record forwarded for an
    IMU message carries the message's linear acceleration and angular
    velocity rotated by the sensor-to-tracking rotation, and it is
    forwarded, alone, whenever the lookup succeeds and the checks of
    [ToImuData] pass. *)
Theorem forwarded_in_tracking_frame (sensor_id : string) (st : SensorBridge) :
  (forall (time : Time) (frame_id : string) (ranges : TimedPointCloud),
      (forall call, In call (calls (HandleRangefinder sensor_id time frame_id ranges st)) ->
         exists T, LookupToTracking time (CheckNoLeadingSlash frame_id) = Some T /\
                   call = rangefinder_call sensor_id time T ranges) /\
      (forall T, LookupToTracking time (CheckNoLeadingSlash frame_id) = Some T ->
         calls (HandleRangefinder sensor_id time frame_id ranges st) =
         [rangefinder_call sensor_id time T ranges])) /\
  (forall msg : Imu,
      (forall call, In call (calls (HandleImuMessage sensor_id msg st)) ->
         exists T, LookupToTracking (FromRos (stamp (imu_header msg)))
                     (CheckNoLeadingSlash (frame_id (imu_header msg))) = Some T /\
                   call = imu_call sensor_id msg T) /\
      (forall T, LookupToTracking (FromRos (stamp (imu_header msg)))
                   (CheckNoLeadingSlash (frame_id (imu_header msg))) = Some T ->
         imu_has_measurements msg = true -> imu_colocated T = true ->
         calls (HandleImuMessage sensor_id msg st) =
         [(sensor_id,
           SD_Imu
             {| imu_time := FromRos (stamp (imu_header msg));
                imu_linear_acceleration :=
                  quaternion_rotate (rigid_rotation T) (ToEigen (linear_acceleration msg));
                imu_angular_velocity :=
                  quaternion_rotate (rigid_rotation T)
                                    (ToEigen (angular_velocity msg)) |})])).
Proof.
  split.
  - intros time frame_id ranges. split.
    + intros call Hin.
      destruct (LookupToTracking time (CheckNoLeadingSlash frame_id)) as [T|] eqn:HT.
      * rewrite (HandleRangefinder_found _ _ _ _ _ T HT) in Hin.
        destruct Hin as [<- | []]. now exists T.
      * rewrite (HandleRangefinder_null _ _ _ _ _ HT) in Hin. destruct Hin.
    + intros T HT. now rewrite (HandleRangefinder_found _ _ _ _ _ T HT).
  - intros msg. rewrite HandleImuMessage_cases. unfold imu_lookup. split.
    + intros call.
      destruct (imu_has_measurements msg); [|intros []].
      destruct (LookupToTracking _ _) as [T|]; [|intros []].
      destruct (imu_colocated T); [|intros []].
      intros [<- | []]. now exists T.
    + intros T -> -> ->. reflexivity.
Qed.

(** C6, amended: an odometry or IMU message is resolved against the
    tracking frame at its own stamp.  For odometry a failed lookup
    forwards nothing and leaves the state as it was, and a successful one
    forwards exactly one record.  For an IMU message that passes the two
    covariance checks the same holds as long as the transform found has a
    translation of norm below [1e-5]; when it has not, and when a
    covariance check fails, the process stops with nothing forwarded. *)
Theorem odometry_imu_lookup (sensor_id : string) (st : SensorBridge) :
  (forall msg : Odometry,
      (odometry_lookup msg = None ->
       HandleOdometryMessage sensor_id msg st = ([], Done tt st)) /\
      (forall T, odometry_lookup msg = Some T ->
         exists d, ToOdometryData msg = Some d /\
                   HandleOdometryMessage sensor_id msg st =
                   ([(sensor_id, SD_Odometry d)], Done tt st))) /\
  (forall msg : Imu,
      (imu_has_measurements msg = true ->
       (imu_lookup msg = None ->
        HandleImuMessage sensor_id msg st = ([], Done tt st)) /\
       (forall T, imu_lookup msg = Some T ->
          HandleImuMessage sensor_id msg st =
          (if imu_colocated T then ([imu_call sensor_id msg T], Done tt st)
           else ([], Stopped)))) /\
      (imu_has_measurements msg = false ->
       HandleImuMessage sensor_id msg st = ([], Stopped))).
Proof.
  split.
  - intros msg. unfold odometry_lookup, HandleOdometryMessage, ToOdometryData. split.
    + intros ->. reflexivity.
    + intros T ->. eexists. split; [reflexivity|]. reflexivity.
  - intros msg. rewrite HandleImuMessage_cases. split.
    + intros ->. split; [intros -> | intros T ->]; reflexivity.
    + intros ->. reflexivity.
Qed.

(** *** PointCloud2 *)

Lemma emplace_loop_filter {P A : Type} (skip : P -> bool) (mk : P -> A)
    (pts : list P) (out : list A) :
  emplace_loop skip mk pts out =
  out ++ map mk (List.filter (fun point => negb (skip point)) pts).
Proof.
  revert out. induction pts as [|point rest IH]; intros out; simpl.
  - now rewrite app_nil_r.
  - destruct (skip point); simpl; rewrite IH; [reflexivity|].
    now rewrite <- app_assoc.
Qed.

(** C9: [HandlePointCloud2Message] hands to [HandleRangefinder] the points
    for which neither [isnan] nor [isinf] holds.  For ["ouster"] and
    ["velodyne"] each point's time is its own time minus that of the last
    point of the raw cloud and the stamp is the header stamp plus that last
    time; for ["robosense"] the times are the same differences and the
    stamp is the header stamp; for any other sensor type every time is [0]
    and the stamp is the header stamp. *)
Theorem HandlePointCloud2Message_times (sensor_id : string) (msg : PointCloud2)
    (sensor_type : string) (st : SensorBridge) :
  let header := PointCloud2_header msg in
  (sensor_type = "ouster"%string ->
   forall back, last (fromROSMsg_ouster msg) = Some back ->
     HandlePointCloud2Message sensor_id msg sensor_type st =
     HandleRangefinder sensor_id
       (FromRos (stamp header) + FromSeconds (to_double (ouster_seconds back)))
       (frame_id header) (ouster_cloud (fromROSMsg_ouster msg) back) st) /\
  (sensor_type = "velodyne"%string ->
   forall back, last (fromROSMsg_velodyne msg) = Some back ->
     HandlePointCloud2Message sensor_id msg sensor_type st =
     HandleRangefinder sensor_id
       (FromRos (stamp header) + FromSeconds (to_double (ve_time back)))
       (frame_id header) (velodyne_cloud (fromROSMsg_velodyne msg) back) st) /\
  (sensor_type = "robosense"%string ->
   forall back, last (fromROSMsg_robosense msg) = Some back ->
     HandlePointCloud2Message sensor_id msg sensor_type st =
     HandleRangefinder sensor_id (FromRos (stamp header))
       (frame_id header) (robosense_cloud (fromROSMsg_robosense msg) back) st) /\
  (sensor_type <> "ouster"%string -> sensor_type <> "velodyne"%string ->
   sensor_type <> "robosense"%string ->
     HandlePointCloud2Message sensor_id msg sensor_type st =
     HandleRangefinder sensor_id (FromRos (stamp header))
       (frame_id header) (xyzi_cloud (fromROSMsg_xyzi msg)) st).
Proof.
  intros header. unfold HandlePointCloud2Message. fold header.
  repeat split.
  - intros -> back Hback. cbn [String.eqb Ascii.eqb Bool.eqb]. rewrite Hback.
    now rewrite emplace_loop_filter.
  - intros -> back Hback. cbn [String.eqb Ascii.eqb Bool.eqb]. rewrite Hback.
    now rewrite emplace_loop_filter.
  - intros -> back Hback. cbn [String.eqb Ascii.eqb Bool.eqb]. rewrite Hback.
    now rewrite emplace_loop_filter.
  - intros H1 H2 H3.
    apply String.eqb_neq in H1, H2, H3. rewrite H1, H2, H3.
    now rewrite emplace_loop_filter.
Qed.

End Conversion.

(** ** Subdivisions of a laser scan *)

Section Arithmetic.

(** A value minus itself is [+0], unless it is infinite or not a
    number. *)
Lemma dsub_diag (v : double) :
  dsub v v = if is_finite v then zero else S754_nan.
Proof.
  destruct v as [[]|[]| |s m e]; try reflexivity.
  unfold dsub, SFsub. cbn [is_finite]. now rewrite Z.sub_diag.
Qed.

Lemma rebase_back_checked (v : double) :
  eqb (to_float (dsub v v)) zero = true -> to_float (dsub v v) = zero.
Proof.
  rewrite dsub_diag. destruct (is_finite v); [reflexivity | discriminate].
Qed.

Lemma rebase_back_finite (v : double) :
  is_finite v = true -> to_float (dsub v v) = zero.
Proof. intros H. now rewrite dsub_diag, H. Qed.

Lemma size_t_wrap_small (z : Z) : 0 <= z < 2 ^ 64 -> size_t_wrap z = z.
Proof. intros H. unfold size_t_wrap. now apply Z.mod_small. Qed.

Variables (n k : Z).
Hypothesis Hk : 0 < k < 2 ^ 31.
Hypothesis Hn : 0 <= n.
Hypothesis Hnk : n * k < 2 ^ 64.

Lemma product_no_wrap (i : Z) : 0 <= i <= k -> size_t_wrap (n * i) = n * i.
Proof. intros Hi. apply size_t_wrap_small. nia. Qed.

Lemma divisor_no_wrap : size_t_wrap k = k.
Proof. apply size_t_wrap_small. lia. Qed.

Lemma start_index_exact (i : Z) : 0 <= i <= k -> start_index n k i = n * i / k.
Proof.
  intros Hi. unfold start_index. now rewrite product_no_wrap, divisor_no_wrap.
Qed.

Lemma end_index_exact (i : Z) : 0 <= i < k -> end_index n k i = n * (i + 1) / k.
Proof.
  intros Hi. unfold end_index. rewrite product_no_wrap, divisor_no_wrap by lia.
  reflexivity.
Qed.

Lemma end_index_start_index (i : Z) :
  0 <= i < k -> end_index n k i = start_index n k (i + 1).
Proof.
  intros Hi. now rewrite end_index_exact, start_index_exact by lia.
Qed.

Lemma start_index_0 : start_index n k 0 = 0.
Proof.
  rewrite start_index_exact by lia. rewrite Z.mul_0_r. apply Z.div_0_l. lia.
Qed.

Lemma start_index_last : start_index n k k = n.
Proof. rewrite start_index_exact by lia. apply Z.div_mul. lia. Qed.

Lemma start_index_mono (i j : Z) :
  0 <= i <= j -> j <= k -> start_index n k i <= start_index n k j.
Proof.
  intros Hi Hj. rewrite !start_index_exact by lia.
  apply Z.div_le_mono; [lia | nia].
Qed.

Lemma start_index_bounds (i : Z) : 0 <= i <= k -> 0 <= start_index n k i <= n.
Proof.
  intros Hi. split.
  - rewrite <- start_index_0. apply start_index_mono; lia.
  - rewrite <- start_index_last at 2. apply start_index_mono; lia.
Qed.

Lemma index_bounds (i : Z) :
  0 <= i < k ->
  0 <= start_index n k i /\ start_index n k i <= end_index n k i /\ end_index n k i <= n.
Proof.
  intros Hi. rewrite end_index_start_index by lia.
  pose proof (start_index_bounds i). pose proof (start_index_bounds (i + 1)).
  pose proof (start_index_mono i (i + 1)). lia.
Qed.

End Arithmetic.

Section Slices.

Context {A : Type}.

Lemma length_slice (b e : Z) (l : list A) :
  0 <= b <= e -> e <= Z.of_nat (length l) -> Z.of_nat (length (slice b e l)) = e - b.
Proof.
  intros Hb He. unfold slice. rewrite length_take, length_drop. lia.
Qed.

Lemma slice_nil (b e : Z) (l : list A) :
  0 <= b <= e -> e <= Z.of_nat (length l) -> slice b e l = [] -> b = e.
Proof.
  intros Hb He Hnil. pose proof (length_slice b e l Hb He) as Hlen.
  rewrite Hnil in Hlen. simpl in Hlen. lia.
Qed.

Lemma take_slice (b e : Z) (l : list A) :
  0 <= b <= e -> take (Z.to_nat b) l ++ slice b e l = take (Z.to_nat e) l.
Proof.
  intros Hb. unfold slice. rewrite take_take_drop. f_equal. lia.
Qed.

Lemma last_map {B : Type} (f : A -> B) (l : list A) : last (map f l) = f <$> last l.
Proof.
  induction l as [|x [|y l] IH]; [reflexivity | reflexivity |].
  change (map f (x :: y :: l)) with (f x :: f y :: map f l).
  rewrite !last_cons_cons. exact IH.
Qed.

End Slices.

Section Partition.

Variable pts : TimedPointCloud.
Variable k : Z.
Hypothesis Hk : 0 < k < 2 ^ 31.
Hypothesis Hnk : Z.of_nat (length pts) * k < 2 ^ 64.

Let n := Z.of_nat (length pts).

Lemma subdivisions_prefix (m : nat) :
  Z.of_nat m <= k ->
  concat (map (subdivision pts k) (seqZ 0 (Z.of_nat m))) =
  take (Z.to_nat (start_index n k (Z.of_nat m))) pts.
Proof.
  induction m as [|m IH]; intros Hm.
  - change (Z.of_nat 0) with 0. rewrite (start_index_0 n k) by (subst n; lia).
    reflexivity.
  - rewrite seqZ_S, List.map_app, concat_app, IH by lia. simpl.
    rewrite app_nil_r, Z.add_0_l. unfold subdivision. fold n.
    rewrite (end_index_start_index n k) by (subst n; lia).
    replace (Z.of_nat m + 1) with (Z.of_nat (S m)) by lia.
    apply take_slice.
    pose proof (start_index_bounds n k Hk ltac:(subst n; lia) Hnk (Z.of_nat m)).
    pose proof (start_index_mono n k Hk ltac:(subst n; lia) Hnk
                  (Z.of_nat m) (Z.of_nat (S m))).
    lia.
Qed.

Lemma subdivisions_concat : concat (map (subdivision pts k) (seqZ 0 k)) = pts.
Proof.
  replace (seqZ 0 k) with (seqZ 0 (Z.of_nat (Z.to_nat k))) by (f_equal; lia).
  rewrite subdivisions_prefix by lia. rewrite Z2Nat.id by lia.
  rewrite (start_index_last n k) by (subst n; lia).
  apply take_ge. subst n. lia.
Qed.

End Partition.

(** ** Laser scans *)

Section LaserScan.

Context `{C : Collaborators}.

Lemma calls_bind {A B : Type} (m : M A) (f : A -> M B) (st : SensorBridge) :
  calls (bind m f st) =
  calls (m st) ++
  match m st with
  | (_, Done a st') => calls (f a st')
  | (_, Stopped) => []
  end.
Proof.
  unfold bind, calls. destruct (m st) as [cs [a st'|]]; simpl.
  - now destruct (f a st').
  - now rewrite app_nil_r.
Qed.

Lemma final_bind {A B : Type} (m : M A) (f : A -> M B) (st : SensorBridge) :
  final (bind m f st) =
  match m st with
  | (_, Done a st') => final (f a st')
  | (_, Stopped) => None
  end.
Proof.
  unfold bind, final. destruct (m st) as [cs [a st'|]]; simpl; [|reflexivity].
  now destruct (f a st').
Qed.

(** The body of the loop, case by case. *)
Lemma HandleLaserScan_body_cases (sensor_id : string) (time : Time) (frame_id : string)
    (pts : PointCloudWithIntensities) (k i : Z) (st : SensorBridge) :
  HandleLaserScan_body sensor_id time frame_id pts k i st =
  let size := Z.of_nat (length (points pts)) in
  if negb ((start_index size k i <=? end_index size k i) && (end_index size k i <=? size))
  then ([], Stopped)
  else if start_index size k i =? end_index size k i then ([], Done tt st)
  else
    match last (subdivision (points pts) k i) with
    | None => ([], Stopped)
    | Some back =>
        let time_to_subdivision_end := to_double (p_t back) in
        let subdivision_time := time + FromSeconds time_to_subdivision_end in
        if ignored st sensor_id subdivision_time then ([], Done tt st)
        else if eqb (p_t (rebase time_to_subdivision_end back)) zero then
          match LookupToTracking subdivision_time (CheckNoLeadingSlash frame_id) with
          | Some T =>
              ([rangefinder_call sensor_id subdivision_time T
                  (map (rebase time_to_subdivision_end) (subdivision (points pts) k i))],
               Done tt (record_subdivision_time st sensor_id subdivision_time))
          | None => ([], Done tt (record_subdivision_time st sensor_id subdivision_time))
          end
        else ([], Stopped)
    end.
Proof.
  unfold HandleLaserScan_body, subdivision. cbv zeta.
  destruct (negb _); [reflexivity|].
  destruct (_ =? _); [reflexivity|].
  destruct (last (slice _ _ _)) as [back|] eqn:Hback; [|reflexivity].
  unfold bind at 1. unfold get at 1. cbv beta iota.
  unfold ignored, previous_subdivision_time.
  assert (Hgo :
    (let (calls', r) :=
       (put (record_subdivision_time st sensor_id
               (time + FromSeconds (to_double (p_t back))));;
        match last (map (rebase (to_double (p_t back)))
                        (subdivision (points pts) k i)) with
        | Some back' => CHECK (eqb (p_t back') zero)
        | None => stop
        end;;
        HandleRangefinder sensor_id (time + FromSeconds (to_double (p_t back)))
          frame_id (map (rebase (to_double (p_t back)))
                        (subdivision (points pts) k i)))%bridge st
     in ([] ++ calls', r)) =
    (if eqb (p_t (rebase (to_double (p_t back)) back)) zero then
       match LookupToTracking (time + FromSeconds (to_double (p_t back)))
                              (CheckNoLeadingSlash frame_id) with
       | Some T =>
           ([rangefinder_call sensor_id (time + FromSeconds (to_double (p_t back))) T
               (map (rebase (to_double (p_t back))) (subdivision (points pts) k i))],
            Done tt (record_subdivision_time st sensor_id
                       (time + FromSeconds (to_double (p_t back)))))
       | None =>
           ([], Done tt (record_subdivision_time st sensor_id
                           (time + FromSeconds (to_double (p_t back)))))
       end
     else ([], Stopped))).
  { unfold bind, put. cbv beta iota. unfold subdivision. cbv zeta.
    rewrite last_map, Hback. cbn [fmap option_fmap option_map].
    unfold CHECK. destruct (eqb _ _); [|reflexivity].
    cbn [ret]. unfold HandleRangefinder.
    now destruct (LookupToTracking _ _). }
  destruct (sensor_to_previous_subdivision_time_ st !! sensor_id) as [previous|].
  - destruct (previous >=? _); [reflexivity | exact Hgo].
  - exact Hgo.
Qed.

Lemma HandleLaserScan_loop_foldr (remaining : nat) (sensor_id : string) (time : Time)
    (frame_id : string) (pts : PointCloudWithIntensities) (k i : Z) :
  HandleLaserScan_loop remaining sensor_id time frame_id pts k i =
  foldr (fun j rest => bind (HandleLaserScan_body sensor_id time frame_id pts k j)
                            (fun _ => rest))
        (ret tt) (seqZ i (Z.of_nat remaining)).
Proof.
  revert i. induction remaining as [|remaining IH]; intros i; [reflexivity|].
  cbn [HandleLaserScan_loop]. rewrite IH.
  rewrite (seqZ_cons i (Z.of_nat (S remaining))) by lia.
  replace (Z.pred (Z.of_nat (S remaining))) with (Z.of_nat remaining) by lia.
  replace (Z.succ i) with (i + 1) by lia. reflexivity.
Qed.

Lemma HandleLaserScan_loop_calls (remaining : nat) (sensor_id : string) (time : Time)
    (frame_id : string) (pts : PointCloudWithIntensities) (k i : Z)
    (st : SensorBridge) (call : Call) :
  In call (calls (HandleLaserScan_loop remaining sensor_id time frame_id pts k i st)) ->
  exists j st', i <= j < i + Z.of_nat remaining /\
    In call (calls (HandleLaserScan_body sensor_id time frame_id pts k j st')).
Proof.
  revert i st. induction remaining as [|remaining IH]; intros i st; [intros []|].
  cbn [HandleLaserScan_loop]. rewrite calls_bind, in_app_iff. intros [Hin | Hin].
  - exists i, st. split; [lia | exact Hin].
  - destruct (HandleLaserScan_body _ _ _ _ _ _ _) as [cs [[] st'|]]; [|destruct Hin].
    destruct (IH _ _ Hin) as (j & st'' & Hj & Hin'). exists j, st''. split; [lia | exact Hin'].
Qed.

Lemma HandleLaserScan_calls (sensor_id : string) (time : Time) (frame_id : string)
    (pts : PointCloudWithIntensities) (st : SensorBridge) (call : Call) :
  In call (calls (HandleLaserScan sensor_id time frame_id pts st)) ->
  exists j st', 0 <= j < num_subdivisions_per_laser_scan_ st /\
    In call (calls (HandleLaserScan_body sensor_id time frame_id pts
                      (num_subdivisions_per_laser_scan_ st) j st')).
Proof.
  unfold HandleLaserScan. destruct (last (points pts)) as [back|]; [|intros []].
  unfold CHECK. destruct (leb (p_t back) zero); [|intros []].
  unfold bind, ret, get. cbv beta iota.
  destruct (num_subdivisions_per_laser_scan_ st <? 0) eqn:Hneg; [intros []|].
  destruct (HandleLaserScan_loop _ _ _ _ _ _ _ _) as [cs r] eqn:Hloop.
  cbn [calls fst app]. intros Hin.
  destruct (HandleLaserScan_loop_calls (Z.to_nat (num_subdivisions_per_laser_scan_ st))
              sensor_id time frame_id pts (num_subdivisions_per_laser_scan_ st) 0 st call)
    as (j & st' & Hj & Hin').
  { now rewrite Hloop. }
  exists j, st'. split; [|exact Hin']. apply Z.ltb_ge in Hneg. lia.
Qed.

Lemma HandleLaserScan_runs_loop (sensor_id : string) (time : Time) (frame_id : string)
    (pts : PointCloudWithIntensities) (st : SensorBridge) (back : Vector4f) :
  last (points pts) = Some back -> leb (p_t back) zero = true ->
  0 <= num_subdivisions_per_laser_scan_ st ->
  HandleLaserScan sensor_id time frame_id pts st =
  HandleLaserScan_loop (Z.to_nat (num_subdivisions_per_laser_scan_ st)) sensor_id time
    frame_id pts (num_subdivisions_per_laser_scan_ st) 0 st.
Proof.
  intros Hback Hle Hk. unfold HandleLaserScan. rewrite Hback, Hle.
  unfold CHECK, bind, ret, get. cbv beta iota.
  replace (num_subdivisions_per_laser_scan_ st <? 0) with false by (symmetry; lia).
  now destruct (HandleLaserScan_loop _ _ _ _ _ _ _ _).
Qed.

Lemma lookup_map {A B : Type} (f : A -> B) (l : list A) (j : nat) :
  map f l !! j = f <$> l !! j.
Proof.
  revert j. induction l as [|x l IH]; intros [|j]; try reflexivity. apply IH.
Qed.

(** C1: a subdivision that [HandleLaserScan] forwards is one of the
    slices of the scan with every point's time decreased by the time of
    the slice's last point; the last point's time is then exactly [0], and
    the subdivision is stamped with the scan time plus the time its last
    point had. *)
Theorem HandleLaserScan_rebases (sensor_id : string) (time : Time) (frame_id : string)
    (pts : PointCloudWithIntensities) (st : SensorBridge) (call : Call) :
  In call (calls (HandleLaserScan sensor_id time frame_id pts st)) ->
  exists (i : Z) (back : Vector4f) (T : Rigid3d),
    let sub := subdivision (points pts) (num_subdivisions_per_laser_scan_ st) i in
    let rebased := map (rebase (to_double (p_t back))) sub in
    let subdivision_time := time + FromSeconds (to_double (p_t back)) in
    0 <= i < num_subdivisions_per_laser_scan_ st /\
    last sub = Some back /\
    (forall (j : nat) (point : Vector4f), sub !! j = Some point ->
       rebased !! j =
       Some {| p_x := p_x point; p_y := p_y point; p_z := p_z point;
               p_t := to_float (dsub (to_double (p_t point)) (to_double (p_t back))) |}) /\
    p_t <$> last rebased = Some zero /\
    LookupToTracking subdivision_time (CheckNoLeadingSlash frame_id) = Some T /\
    call = rangefinder_call sensor_id subdivision_time T rebased.
Proof.
  intros Hin. apply HandleLaserScan_calls in Hin as (i & st' & Hi & Hin).
  rewrite HandleLaserScan_body_cases in Hin. cbv zeta in Hin.
  destruct (negb _); [destruct Hin|].
  destruct (_ =? _); [destruct Hin|].
  destruct (last (subdivision _ _ _)) as [back|] eqn:Hback; [|destruct Hin].
  destruct (ignored _ _ _); [destruct Hin|].
  destruct (eqb _ _) eqn:Hzero; [|destruct Hin].
  destruct (LookupToTracking _ _) as [T|] eqn:HT; [|destruct Hin].
  destruct Hin as [<- | []].
  exists i, back, T. cbv zeta. repeat split; try lia; try assumption.
  - intros j point Hj. rewrite lookup_map. unfold TimedPointCloud in *.
    now rewrite Hj.
  - rewrite last_map, Hback. cbn [fmap option_fmap option_map]. f_equal.
    now apply rebase_back_checked.
Qed.

(** C3: with [k] subdivisions per scan, [k] positive and [n * k] within
    [size_t], slice [i] of a scan of [n] points runs from index
    [n * i / k] to index [n * (i + 1) / k].  The loop of [HandleLaserScan]
    visits the slices in order; it does nothing for an empty one, and a
    slice with points it ignores when its time is not after the one
    recorded, and otherwise records its time and hands it, re-based, to
    [HandleRangefinder].  The slices concatenated in order are the points
    of the scan. *)
Theorem subdivisions_partition (pts : PointCloudWithIntensities) (k : Z) :
  0 < k < 2 ^ 31 ->
  Z.of_nat (length (points pts)) * k < 2 ^ 64 ->
  let n := Z.of_nat (length (points pts)) in
  (forall i, 0 <= i < k ->
     subdivision (points pts) k i = slice (n * i / k) (n * (i + 1) / k) (points pts) /\
     (subdivision (points pts) k i = [] ->
      forall sensor_id time frame_id st,
        HandleLaserScan_body sensor_id time frame_id pts k i st = ([], Done tt st)) /\
     (subdivision (points pts) k i <> [] ->
      exists back,
        last (slice (n * i / k) (n * (i + 1) / k) (points pts)) = Some back /\
        forall sensor_id time frame_id st,
          HandleLaserScan_body sensor_id time frame_id pts k i st =
          let time_to_subdivision_end := to_double (p_t back) in
          let subdivision_time := time + FromSeconds time_to_subdivision_end in
          let rebased :=
            map (rebase time_to_subdivision_end)
                (slice (n * i / k) (n * (i + 1) / k) (points pts)) in
          if ignored st sensor_id subdivision_time then ([], Done tt st)
          else
            bind (put (record_subdivision_time st sensor_id subdivision_time))
                 (fun _ =>
                    bind (CHECK (eqb (p_t (rebase time_to_subdivision_end back)) zero))
                         (fun _ =>
                            HandleRangefinder sensor_id subdivision_time frame_id
                                              rebased))
                 st)) /\
  (forall sensor_id time frame_id st back,
     last (points pts) = Some back -> leb (p_t back) zero = true ->
     num_subdivisions_per_laser_scan_ st = k ->
     HandleLaserScan sensor_id time frame_id pts st =
     foldr (fun i rest => bind (HandleLaserScan_body sensor_id time frame_id pts k i)
                               (fun _ => rest))
           (ret tt) (seqZ 0 k) st) /\
  concat (map (subdivision (points pts) k) (seqZ 0 k)) = points pts.
Proof.
  intros Hk Hnk n. assert (Hn : 0 <= n) by (subst n; lia).
  split; [|split].
  - intros i Hi.
    pose proof (index_bounds n k Hk Hn Hnk i Hi) as (Hb0 & Hb1 & Hb2).
    assert (Hslice : subdivision (points pts) k i =
                     slice (n * i / k) (n * (i + 1) / k) (points pts)).
    { unfold subdivision. fold n.
      now rewrite (start_index_exact n k), (end_index_exact n k) by lia. }
    split; [exact Hslice|]. split.
    + intros Hnil sensor_id time frame_id st.
      rewrite HandleLaserScan_body_cases. cbv zeta. fold n.
      replace (start_index n k i <=? end_index n k i) with true by (symmetry; lia).
      replace (end_index n k i <=? n) with true by (symmetry; lia).
      cbn [andb negb].
      unfold subdivision in Hnil. fold n in Hnil.
      apply slice_nil in Hnil; [|lia|fold n; lia].
      now rewrite Hnil, Z.eqb_refl.
    + intros Hne. rewrite <- Hslice.
      destruct (last (subdivision (points pts) k i)) as [back|] eqn:Hback;
        [|now apply last_None in Hback].
      exists back. split; [reflexivity|].
      intros sensor_id time frame_id st.
      rewrite HandleLaserScan_body_cases. cbv zeta. fold n.
      replace (start_index n k i <=? end_index n k i) with true by (symmetry; lia).
      replace (end_index n k i <=? n) with true by (symmetry; lia).
      cbn [andb negb].
      destruct (start_index n k i =? end_index n k i) eqn:Hsame.
      { exfalso. apply Hne. unfold subdivision, slice. fold n.
        apply Z.eqb_eq in Hsame. rewrite Hsame, Z.sub_diag. reflexivity. }
      rewrite Hback. destruct (ignored _ _ _); [reflexivity|].
      unfold bind, put, CHECK. destruct (eqb _ _); [|reflexivity].
      cbn [ret]. unfold HandleRangefinder.
      now destruct (LookupToTracking _ _).
  - intros sensor_id time frame_id st back Hback Hle Hst.
    rewrite (HandleLaserScan_runs_loop _ _ _ _ _ back Hback Hle) by lia.
    now rewrite Hst, HandleLaserScan_loop_foldr, Z2Nat.id by lia.
  - now apply subdivisions_concat.
Qed.

(** *** Order of the subdivisions *)

Lemma point_cloud_times_app (sensor_id : string) (cs1 cs2 : list Call) :
  point_cloud_times sensor_id (cs1 ++ cs2) =
  point_cloud_times sensor_id cs1 ++ point_cloud_times sensor_id cs2.
Proof. unfold point_cloud_times. now rewrite flat_map_app. Qed.

Lemma after_reached (recorded : option Time) (t1 t2 : Time) :
  reached recorded t1 -> after recorded t2 -> t1 < t2.
Proof. destruct recorded as [p|]; simpl; [lia | tauto]. Qed.

Lemma after_earlier (recorded recorded' : option Time) (t : Time) :
  (forall t', reached recorded t' -> reached recorded' t') ->
  after recorded' t -> after recorded t.
Proof.
  intros Hmono Hafter. destruct recorded as [p|]; [|exact I].
  simpl. apply (after_reached recorded'); [|exact Hafter].
  apply Hmono. simpl. lia.
Qed.

Lemma ordered_quiet (sensor_id : string) {A : Type} (m : M A) :
  (forall st, calls (m st) = [] /\
              forall st', final (m st) = Some st' ->
                previous_subdivision_time st' sensor_id =
                previous_subdivision_time st sensor_id) ->
  ordered sensor_id m.
Proof.
  intros H st. destruct (H st) as [Hcalls Hfinal]. cbv zeta. rewrite Hcalls. cbn.
  split; [constructor|]. split; [constructor|].
  intros st' Hst'. rewrite (Hfinal _ Hst'). split; [auto | constructor].
Qed.

Lemma ordered_ret (sensor_id : string) {A : Type} (a : A) : ordered sensor_id (ret a).
Proof.
  apply ordered_quiet. intros st. split; [reflexivity|].
  intros st' [= <-]. reflexivity.
Qed.

Lemma ordered_stop (sensor_id : string) {A : Type} : ordered sensor_id (@stop _ A).
Proof. apply ordered_quiet. intros st. split; [reflexivity | discriminate]. Qed.

Lemma ordered_get (sensor_id : string) : ordered sensor_id get.
Proof.
  apply ordered_quiet. intros st. split; [reflexivity|].
  intros st' [= <-]. reflexivity.
Qed.

Lemma ordered_CHECK (sensor_id : string) (b : bool) : ordered sensor_id (CHECK b).
Proof. destruct b; [apply ordered_ret | apply ordered_stop]. Qed.

Lemma ordered_bind (sensor_id : string) {A B : Type} (m : M A) (f : A -> M B) :
  ordered sensor_id m -> (forall a, ordered sensor_id (f a)) ->
  ordered sensor_id (bind m f).
Proof.
  intros Hm Hf st. cbv zeta. rewrite calls_bind, final_bind, point_cloud_times_app.
  destruct (Hm st) as (Hs1 & Ha1 & Hfin1).
  destruct (m st) as [cs1 [a st1|]] eqn:Hmst.
  - destruct (Hfin1 st1 eq_refl) as [Hmono1 Hr1].
    destruct (Hf a st1) as (Hs2 & Ha2 & Hfin2).
    cbn [calls fst] in *.
    split; [|split].
    + apply StronglySorted_app_2; [|assumption|assumption].
      intros x1 x2 Hx1 Hx2.
      rewrite Forall_forall in Hr1, Ha2.
      apply (after_reached (previous_subdivision_time st1 sensor_id)); auto.
    + apply Forall_app. split; [assumption|].
      eapply Forall_impl; [exact Ha2|].
      intros t. now apply after_earlier.
    + intros st' Hst'. destruct (Hfin2 st' Hst') as [Hmono2 Hr2]. split.
      * auto.
      * apply Forall_app. split; [|assumption].
        eapply Forall_impl; [exact Hr1|]. auto.
  - cbn [calls fst] in *. rewrite !app_nil_r.
    split; [assumption|]. split; [assumption|]. discriminate.
Qed.

Lemma previous_after_record (st : SensorBridge) (recorded_id sensor_id : string)
    (t : Time) :
  previous_subdivision_time (record_subdivision_time st recorded_id t) sensor_id =
  if String.eqb recorded_id sensor_id then Some t
  else previous_subdivision_time st sensor_id.
Proof.
  unfold previous_subdivision_time, record_subdivision_time. cbn.
  destruct (String.eqb_spec recorded_id sensor_id) as [->|Hne].
  - apply lookup_insert_eq.
  - now apply lookup_insert_ne.
Qed.

Lemma ignored_false_after (st : SensorBridge) (sensor_id : string) (t : Time) :
  ignored st sensor_id t = false -> after (previous_subdivision_time st sensor_id) t.
Proof.
  unfold ignored. destruct (previous_subdivision_time st sensor_id) as [p|]; simpl;
    [lia | trivial].
Qed.

Lemma ordered_forward (sensor_id recorded_id : string) (st : SensorBridge) (t : Time)
    (cs : list Call) :
  ignored st recorded_id t = false ->
  point_cloud_times sensor_id cs = [] \/
  (recorded_id = sensor_id /\ point_cloud_times sensor_id cs = [t]) ->
  let times := point_cloud_times sensor_id cs in
  StronglySorted Z.lt times /\
  Forall (after (previous_subdivision_time st sensor_id)) times /\
  (forall t', reached (previous_subdivision_time st sensor_id) t' ->
     reached (previous_subdivision_time (record_subdivision_time st recorded_id t)
                                        sensor_id) t') /\
  Forall (reached (previous_subdivision_time (record_subdivision_time st recorded_id t)
                                             sensor_id)) times.
Proof.
  intros Hign Hcs. cbv zeta. rewrite previous_after_record.
  assert (Hmono : forall t',
    reached (previous_subdivision_time st sensor_id) t' ->
    reached (if String.eqb recorded_id sensor_id then Some t
             else previous_subdivision_time st sensor_id) t').
  { intros t' Hr. destruct (String.eqb_spec recorded_id sensor_id) as [->|]; [|exact Hr].
    apply ignored_false_after in Hign. pose proof (after_reached _ _ _ Hr Hign).
    simpl. lia. }
  destruct Hcs as [-> | [-> ->]].
  - repeat split; try constructor. exact Hmono.
  - rewrite String.eqb_refl in *. repeat split.
    + repeat constructor.
    + repeat constructor. now apply ignored_false_after.
    + exact Hmono.
    + repeat constructor. simpl. lia.
Qed.

Lemma ordered_body (sensor_id recorded_id : string) (time : Time) (frame_id : string)
    (pts : PointCloudWithIntensities) (k i : Z) :
  ordered sensor_id (HandleLaserScan_body recorded_id time frame_id pts k i).
Proof.
  intros st. cbv zeta. rewrite HandleLaserScan_body_cases. cbv zeta.
  pose proof (ordered_stop sensor_id (A := unit) st) as Hstop.
  pose proof (ordered_ret sensor_id tt st) as Hret.
  destruct (negb _); [exact Hstop|].
  destruct (_ =? _); [exact Hret|].
  destruct (last (subdivision _ _ _)) as [back|]; [|exact Hstop].
  destruct (ignored _ _ _) eqn:Hign; [exact Hret|].
  destruct (eqb _ _); [|exact Hstop].
  set (t := time + FromSeconds (to_double (p_t back))) in *.
  destruct (LookupToTracking _ _) as [T|].
  - destruct (ordered_forward sensor_id recorded_id st t
                [rangefinder_call recorded_id t T
                   (map (rebase (to_double (p_t back))) (subdivision (points pts) k i))]
                Hign) as (H1 & H2 & H3 & H4).
    { unfold point_cloud_times, rangefinder_call. cbn.
      destruct (String.eqb_spec recorded_id sensor_id) as [->|]; [right | left]; auto. }
    split; [exact H1|]. split; [exact H2|]. intros st' [= <-]. now split.
  - destruct (ordered_forward sensor_id recorded_id st t [] Hign) as (H1 & H2 & H3 & H4).
    { now left. }
    split; [exact H1|]. split; [exact H2|]. intros st' [= <-]. now split.
Qed.

Lemma ordered_loop (sensor_id recorded_id : string) (time : Time) (frame_id : string)
    (pts : PointCloudWithIntensities) (k : Z) (remaining : nat) (i : Z) :
  ordered sensor_id (HandleLaserScan_loop remaining recorded_id time frame_id pts k i).
Proof.
  revert i. induction remaining as [|remaining IH]; intros i.
  - apply ordered_ret.
  - cbn [HandleLaserScan_loop]. apply ordered_bind; [apply ordered_body|].
    intros _. apply IH.
Qed.

Lemma ordered_HandleLaserScan (sensor_id recorded_id : string) (time : Time)
    (frame_id : string) (pts : PointCloudWithIntensities) :
  ordered sensor_id (HandleLaserScan recorded_id time frame_id pts).
Proof.
  unfold HandleLaserScan. destruct (last (points pts)); [|apply ordered_ret].
  apply ordered_bind; [apply ordered_CHECK|]. intros _.
  apply ordered_bind; [apply ordered_get|]. intros st.
  destruct (_ <? 0); [apply ordered_stop | apply ordered_loop].
Qed.

(** *** What each handler leaves of the state *)

Lemma preserves_ret {X A : Type} (part : SensorBridge -> X) (a : A) :
  preserves part (ret a).
Proof. intros st st' [= <-]. reflexivity. Qed.

Lemma preserves_stop {X A : Type} (part : SensorBridge -> X) :
  preserves part (@stop _ A).
Proof. intros st st'. discriminate. Qed.

Lemma preserves_get {X : Type} (part : SensorBridge -> X) : preserves part get.
Proof. intros st st' [= <-]. reflexivity. Qed.

Lemma preserves_CHECK {X : Type} (part : SensorBridge -> X) (b : bool) :
  preserves part (CHECK b).
Proof. destruct b; [apply preserves_ret | apply preserves_stop]. Qed.

Lemma preserves_AddSensorData {X : Type} (part : SensorBridge -> X)
    (sensor_id : string) (data : SensorData) :
  preserves part (AddSensorData sensor_id data).
Proof. intros st st' [= <-]. reflexivity. Qed.

Lemma preserves_bind {X A B : Type} (part : SensorBridge -> X) (m : M A) (f : A -> M B) :
  preserves part m -> (forall a, preserves part (f a)) -> preserves part (bind m f).
Proof.
  intros Hm Hf st st'. rewrite final_bind.
  destruct (m st) as [cs [a st1|]] eqn:Hmst; [|discriminate].
  intros Hst'. rewrite (Hf a _ _ Hst'). apply Hm. now rewrite Hmst.
Qed.

Lemma preserves_HandleRangefinder {X : Type} (part : SensorBridge -> X)
    (sensor_id : string) (time : Time) (frame_id : string) (ranges : TimedPointCloud) :
  preserves part (HandleRangefinder sensor_id time frame_id ranges).
Proof.
  unfold HandleRangefinder.
  destruct (LookupToTracking _ _); [apply preserves_AddSensorData | apply preserves_ret].
Qed.

Lemma preserves_body {X : Type} (part : SensorBridge -> X)
    (sensor_id : string) (time : Time) (frame_id : string)
    (pts : PointCloudWithIntensities) (k i : Z) :
  (forall st t, part (record_subdivision_time st sensor_id t) = part st) ->
  preserves part (HandleLaserScan_body sensor_id time frame_id pts k i).
Proof.
  intros Hpart st st'. rewrite HandleLaserScan_body_cases. cbv zeta.
  destruct (negb _); [discriminate|].
  destruct (_ =? _); [now intros [= <-]|].
  destruct (last (subdivision _ _ _)) as [back|]; [|discriminate].
  destruct (ignored _ _ _); [now intros [= <-]|].
  destruct (eqb _ _); [|discriminate].
  destruct (LookupToTracking _ _); intros [= <-]; apply Hpart.
Qed.

Lemma preserves_HandleLaserScan {X : Type} (part : SensorBridge -> X)
    (sensor_id : string) (time : Time) (frame_id : string)
    (pts : PointCloudWithIntensities) :
  (forall st t, part (record_subdivision_time st sensor_id t) = part st) ->
  preserves part (HandleLaserScan sensor_id time frame_id pts).
Proof.
  intros Hpart. unfold HandleLaserScan.
  destruct (last (points pts)); [|apply preserves_ret].
  apply preserves_bind; [apply preserves_CHECK|]. intros _.
  apply preserves_bind; [apply preserves_get|]. intros st.
  destruct (_ <? 0); [apply preserves_stop|].
  generalize 0. induction (Z.to_nat _) as [|remaining IH]; intros i.
  - apply preserves_ret.
  - cbn [HandleLaserScan_loop]. apply preserves_bind; [now apply preserves_body|].
    intros _. apply IH.
Qed.

End LaserScan.

(** ** Histories *)

Section Histories.

Context `{C : Collaborators}.

Lemma HandleNavSatFixMessage_cases (sensor_id : string) (msg : NavSatFix)
    (st : SensorBridge) :
  HandleNavSatFixMessage sensor_id msg st =
  if status msg =? STATUS_NO_FIX then
    ([fixed_frame_pose_call sensor_id msg None], Done tt st)
  else
    match ecef_to_local_frame_ st with
    | Some frame => ([fixed_frame_pose_call sensor_id msg (Some frame)], Done tt st)
    | None =>
        ([fixed_frame_pose_call sensor_id msg (Some (local_frame_of msg))],
         Done tt (set_ecef_to_local_frame st (local_frame_of msg)))
    end.
Proof.
  unfold HandleNavSatFixMessage. destruct (status msg =? STATUS_NO_FIX); [reflexivity|].
  unfold bind, get. cbv beta iota.
  destruct (ecef_to_local_frame_ st) as [frame|] eqn:Hframe.
  - cbn. now rewrite Hframe.
  - reflexivity.
Qed.

Lemma state_free_HandleRangefinder (sensor_id : string) (time : Time)
    (frame_id : string) (ranges : TimedPointCloud) :
  state_free (HandleRangefinder sensor_id time frame_id ranges).
Proof.
  unfold HandleRangefinder.
  destruct (LookupToTracking _ _) as [T|]; eexists _, true; intros st; reflexivity.
Qed.

Lemma state_free_stop : state_free stop.
Proof. exists [], false. reflexivity. Qed.

Lemma state_free_HandlePointCloud2Message (sensor_id : string) (msg : PointCloud2)
    (sensor_type : string) :
  state_free (HandlePointCloud2Message sensor_id msg sensor_type).
Proof.
  unfold HandlePointCloud2Message.
  repeat match goal with
         | |- context [if ?b then _ else _] => destruct b
         | |- context [match last ?l with _ => _ end] => destruct (last l)
         end;
    apply state_free_HandleRangefinder || apply state_free_stop.
Qed.

Lemma Handle_state_free (m : Message) : keeps_no_state m = true -> state_free (Handle m).
Proof.
  destruct m as [sensor_id msg|sensor_id msg|sensor_id msg|sensor_id msg
                |sensor_id msg|sensor_id msg|sensor_id msg sensor_type];
    cbn [keeps_no_state Handle]; intros Hm; try discriminate.
  - unfold HandleOdometryMessage.
    destruct (ToOdometryData msg); eexists _, true; intros st; reflexivity.
  - eexists _, true. intros st. now rewrite HandleNavSatFixMessage_cases, Hm.
  - eexists _, true. intros st. reflexivity.
  - destruct (imu_has_measurements msg) eqn:Hcov.
    + destruct (imu_lookup msg) as [T|] eqn:HT.
      * destruct (imu_colocated T) eqn:Hco.
        -- eexists _, true. intros st.
           now rewrite HandleImuMessage_cases, Hcov, HT, Hco.
        -- eexists _, false. intros st.
           now rewrite HandleImuMessage_cases, Hcov, HT, Hco.
      * eexists _, true. intros st. now rewrite HandleImuMessage_cases, Hcov, HT.
    + eexists _, false. intros st. now rewrite HandleImuMessage_cases, Hcov.
  - apply state_free_HandlePointCloud2Message.
Qed.

Lemma state_free_preserves {X : Type} (part : SensorBridge -> X) (m : M unit) :
  state_free m -> preserves part m.
Proof.
  intros (cs & completes & Hm) st st'. rewrite Hm.
  destruct completes; [now intros [= <-] | discriminate].
Qed.

Lemma Handle_preserves_times (m : Message) :
  is_laser_scan m = false -> preserves sensor_to_previous_subdivision_time_ (Handle m).
Proof.
  intros Hm. destruct (keeps_no_state m) eqn:Hfree.
  - now apply state_free_preserves, Handle_state_free.
  - destruct m; try discriminate. cbn [Handle keeps_no_state] in *.
    intros st st'. rewrite HandleNavSatFixMessage_cases, Hfree.
    destruct (ecef_to_local_frame_ st); now intros [= <-].
Qed.

Lemma Handle_ordered (sensor_id : string) (m : Message) :
  is_laser_scan m = true -> ordered sensor_id (Handle m).
Proof.
  destruct m; try discriminate; intros _; cbn [Handle].
  - unfold HandleLaserScanMessage. destruct (ToPointCloudWithIntensities msg).
    apply ordered_HandleLaserScan.
  - unfold HandleMultiEchoLaserScanMessage.
    destruct (ToPointCloudWithIntensities_multi_echo msg).
    apply ordered_HandleLaserScan.
Qed.

Lemma run_cons (m : Message) (rest : list Message) (st : SensorBridge) :
  run (m :: rest) st =
  match final (Handle m st) with
  | Some st' => ((m, calls (Handle m st)) :: (run rest st').1, (run rest st').2)
  | None => ([(m, calls (Handle m st))], None)
  end.
Proof.
  cbn [run]. destruct (final (Handle m st)); [|reflexivity].
  now destruct (run rest _).
Qed.

Lemma subdivision_times_ordered (sensor_id : string) (history : list Message)
    (st : SensorBridge) :
  StronglySorted Z.lt (subdivision_times sensor_id (run history st).1) /\
  Forall (after (previous_subdivision_time st sensor_id))
         (subdivision_times sensor_id (run history st).1).
Proof.
  revert st. induction history as [|m rest IH]; intros st.
  - split; constructor.
  - rewrite run_cons. destruct (is_laser_scan m) eqn:Hm.
    + destruct (Handle_ordered sensor_id m Hm st) as (Hs & Ha & Hfin).
      destruct (final (Handle m st)) as [st'|].
      * destruct (Hfin st' eq_refl) as [Hmono Hr]. destruct (IH st') as [Hs' Ha'].
        unfold subdivision_times in *. cbn [flat_map fst snd]. rewrite Hm. split.
        -- apply StronglySorted_app_2; [|assumption|assumption].
           intros x1 x2 Hx1 Hx2. rewrite Forall_forall in Hr, Ha'.
           apply (after_reached (previous_subdivision_time st' sensor_id)); auto.
        -- apply Forall_app. split; [assumption|].
           eapply Forall_impl; [exact Ha'|]. intros t. now apply after_earlier.
      * unfold subdivision_times. cbn [flat_map fst snd]. rewrite Hm, app_nil_r.
        now split.
    + pose proof (Handle_preserves_times m Hm st) as Hkeep.
      destruct (final (Handle m st)) as [st'|].
      * destruct (IH st') as [Hs' Ha'].
        unfold subdivision_times in *. cbn [flat_map fst snd]. rewrite Hm.
        cbn [app]. split; [assumption|].
        unfold previous_subdivision_time in *. now rewrite <- (Hkeep st' eq_refl).
      * unfold subdivision_times. cbn [flat_map fst snd]. rewrite Hm.
        split; constructor.
Qed.

Lemma run_app (history1 history2 : list Message) (st st1 : SensorBridge) :
  (run history1 st).2 = Some st1 ->
  run (history1 ++ history2) st =
  ((run history1 st).1 ++ (run history2 st1).1, (run history2 st1).2).
Proof.
  revert st. induction history1 as [|m rest IH]; intros st.
  - intros [= <-]. cbn. now destruct (run history2 st).
  - cbn [app]. rewrite !run_cons. destruct (final (Handle m st)) as [st'|].
    + cbn [fst snd]. intros Hrest. now rewrite (IH _ Hrest).
    + discriminate.
Qed.

(** C2: a subdivision whose time is not after the time recorded for its
    sensor is skipped, with nothing forwarded and the state, the recorded
    time included, left as it was; and in the course of any history, from
    any state, the times of the subdivisions forwarded for a sensor are
    strictly increasing and all after the time recorded at the start. *)
Theorem out_of_order_subdivisions_ignored (sensor_id : string) :
  (forall (time : Time) (frame_id : string) (pts : PointCloudWithIntensities)
          (k i : Z) (st : SensorBridge) (back : Vector4f) (previous : Time),
      0 < k < 2 ^ 31 -> Z.of_nat (length (points pts)) * k < 2 ^ 64 -> 0 <= i < k ->
      last (subdivision (points pts) k i) = Some back ->
      previous_subdivision_time st sensor_id = Some previous ->
      time + FromSeconds (to_double (p_t back)) <= previous ->
      HandleLaserScan_body sensor_id time frame_id pts k i st = ([], Done tt st)) /\
  (forall (history : list Message) (st : SensorBridge),
      StronglySorted Z.lt (subdivision_times sensor_id (run history st).1) /\
      Forall (after (previous_subdivision_time st sensor_id))
             (subdivision_times sensor_id (run history st).1)).
Proof.
  split.
  - intros time frame_id pts k i st back previous Hk Hnk Hi Hback Hprev Hle.
    rewrite HandleLaserScan_body_cases. cbv zeta.
    pose proof (index_bounds (Z.of_nat (length (points pts))) k Hk ltac:(lia) Hnk i Hi)
      as (Hb0 & Hb1 & Hb2).
    replace (start_index _ k i <=? end_index _ k i) with true by (symmetry; lia).
    replace (end_index _ k i <=? _) with true by (symmetry; lia).
    cbn [andb negb]. destruct (_ =? _); [reflexivity|].
    rewrite Hback. unfold ignored. rewrite Hprev.
    now replace (previous >=? _) with true by (symmetry; lia).
  - apply subdivision_times_ordered.
Qed.

(** C4, amended: an odometry, IMU, landmark or PointCloud2 message, and a
    NavSatFix message without a fix, is handled the same way in every
    state: the records forwarded, and whether the process stops, depend on
    the message alone, and the state is left as it was.  So two histories
    that end in such a message forward the same records for it.  Laser
    scans and NavSatFix messages with a fix are not among them. *)
Theorem state_free_messages (m : Message) :
  keeps_no_state m = true ->
  exists (cs : list Call) (completes : bool),
    (forall st, Handle m st = (cs, if completes then Done tt st else Stopped)) /\
    (forall (history1 history2 : list Message) (st1 st2 st1' st2' : SensorBridge),
        (run history1 st1).2 = Some st1' -> (run history2 st2).2 = Some st2' ->
        (run (history1 ++ [m]) st1).1 = (run history1 st1).1 ++ [(m, cs)] /\
        (run (history2 ++ [m]) st2).1 = (run history2 st2).1 ++ [(m, cs)]).
Proof.
  intros Hm. destruct (Handle_state_free m Hm) as (cs & completes & Hfree).
  exists cs, completes. split; [exact Hfree|].
  assert (Hlast : forall st, (run [m] st).1 = [(m, cs)]).
  { intros st. rewrite run_cons, Hfree. now destruct completes. }
  intros history1 history2 st1 st2 st1' st2' H1 H2.
  rewrite (run_app _ _ _ _ H1), (run_app _ _ _ _ H2). cbn [fst].
  now rewrite !Hlast.
Qed.

(** *** The local frame of NavSatFix *)

Lemma Handle_frame (m : Message) (st st' : SensorBridge) :
  final (Handle m st) = Some st' -> ecef_to_local_frame_ st' = frame_in_use st [m].
Proof.
  assert (Hkeep : first_fix [m] = None -> preserves ecef_to_local_frame_ (Handle m) ->
                  final (Handle m st) = Some st' ->
                  ecef_to_local_frame_ st' = frame_in_use st [m]).
  { intros Hfix Hpre Hst'. rewrite (Hpre _ _ Hst'). unfold frame_in_use. rewrite Hfix.
    now destruct (ecef_to_local_frame_ st). }
  destruct m as [sensor_id msg|sensor_id msg|sensor_id msg|sensor_id msg
                |sensor_id msg|sensor_id msg|sensor_id msg sensor_type].
  2: { cbn [Handle]. rewrite HandleNavSatFixMessage_cases. unfold frame_in_use.
       cbn [first_fix]. destruct (status msg =? STATUS_NO_FIX).
       - intros [= <-]. now destruct (ecef_to_local_frame_ st).
       - destruct (ecef_to_local_frame_ st) eqn:Hf; intros [= <-]; [exact Hf|].
         reflexivity. }
  1-3, 6: apply Hkeep; [reflexivity|];
    now apply state_free_preserves, Handle_state_free.
  - apply Hkeep; [reflexivity|]. cbn [Handle]. unfold HandleLaserScanMessage.
    destruct (ToPointCloudWithIntensities msg). now apply preserves_HandleLaserScan.
  - apply Hkeep; [reflexivity|]. cbn [Handle]. unfold HandleMultiEchoLaserScanMessage.
    destruct (ToPointCloudWithIntensities_multi_echo msg).
    now apply preserves_HandleLaserScan.
Qed.

Lemma frame_in_use_cons (m : Message) (rest : list Message) (st st' : SensorBridge) :
  ecef_to_local_frame_ st' = frame_in_use st [m] ->
  frame_in_use st (m :: rest) = frame_in_use st' rest.
Proof.
  unfold frame_in_use. intros ->.
  destruct (ecef_to_local_frame_ st) as [frame|]; [reflexivity|].
  destruct m; try reflexivity. cbn [first_fix].
  now destruct (status msg =? STATUS_NO_FIX).
Qed.

Lemma run_frame (history : list Message) (st st' : SensorBridge) :
  (run history st).2 = Some st' -> ecef_to_local_frame_ st' = frame_in_use st history.
Proof.
  revert st. induction history as [|m rest IH]; intros st.
  - intros [= <-]. unfold frame_in_use. now destruct (ecef_to_local_frame_ st).
  - rewrite run_cons. destruct (final (Handle m st)) as [st1|] eqn:Hm; [|discriminate].
    cbn [snd]. intros Hrest. rewrite (IH _ Hrest). symmetry.
    now apply frame_in_use_cons, Handle_frame.
Qed.

Lemma run_fix_calls (history : list Message) (st : SensorBridge) (sensor_id : string)
    (msg : NavSatFix) (cs : list Call) :
  In (NavSatFixMessage sensor_id msg, cs) (run history st).1 ->
  cs = [fixed_frame_pose_call sensor_id msg
          (if status msg =? STATUS_NO_FIX then None else frame_in_use st history)].
Proof.
  revert st. induction history as [|m rest IH]; intros st; [intros []|].
  rewrite run_cons.
  assert (Hhere : (NavSatFixMessage sensor_id msg, cs) = (m, calls (Handle m st)) ->
            cs = [fixed_frame_pose_call sensor_id msg
                    (if status msg =? STATUS_NO_FIX then None
                     else frame_in_use st (m :: rest))]).
  { intros [= <- ->]. cbn [Handle]. rewrite HandleNavSatFixMessage_cases.
    unfold frame_in_use. cbn [first_fix].
    destruct (status msg =? STATUS_NO_FIX); [reflexivity|].
    now destruct (ecef_to_local_frame_ st). }
  destruct (final (Handle m st)) as [st1|] eqn:Hm.
  - cbn [fst]. intros [Heq | Hin]; [now apply Hhere|].
    rewrite (frame_in_use_cons m rest st st1) by now apply Handle_frame.
    now apply IH.
  - cbn [fst]. intros [Heq | []]. now apply Hhere.
Qed.

(** C8: a NavSatFix message without a fix forwards a record with no pose
    and leaves the state as it was; one with a fix is converted in the
    frame already set, which then stays, or, when none is set, in the
    frame computed from its own latitude and longitude, which it sets.  In
    the course of a history the frame is therefore the one in use from the
    start or that of the first message with a fix, and every message with
    a fix is converted in it. *)
Theorem ecef_to_local_frame_write_once :
  (forall (sensor_id : string) (msg : NavSatFix) (st : SensorBridge),
      HandleNavSatFixMessage sensor_id msg st =
      if status msg =? STATUS_NO_FIX then
        ([fixed_frame_pose_call sensor_id msg None], Done tt st)
      else
        match ecef_to_local_frame_ st with
        | Some frame => ([fixed_frame_pose_call sensor_id msg (Some frame)], Done tt st)
        | None =>
            ([fixed_frame_pose_call sensor_id msg (Some (local_frame_of msg))],
             Done tt (set_ecef_to_local_frame st (local_frame_of msg)))
        end) /\
  (forall (history : list Message) (st st' : SensorBridge),
      (run history st).2 = Some st' ->
      ecef_to_local_frame_ st' = frame_in_use st history) /\
  (forall (history : list Message) (st : SensorBridge) (sensor_id : string)
          (msg : NavSatFix) (cs : list Call),
      In (NavSatFixMessage sensor_id msg, cs) (run history st).1 ->
      cs = [fixed_frame_pose_call sensor_id msg
              (if status msg =? STATUS_NO_FIX then None else frame_in_use st history)]).
Proof.
  split; [|split].
  - apply HandleNavSatFixMessage_cases.
  - apply run_frame.
  - apply run_fix_calls.
Qed.

End Histories.

(** ** The handlers on the tree of translations *)

(** An odometry message whose child frame is a metre from the tracking
    frame. *)
Lemma ToOdometryData_found_witness :
  ToOdometryData Translations.odometry1 =
  Some {| od_time := Translations.from_ros {| sec := 100; nsec := 0 |};
          od_pose := Translations.vadd (ToRigid3d (odom_pose Translations.odometry1))
                       (Translations.vneg Translations.metre_along_x) |}.
Proof.
  apply (ToOdometryData_found (C := Translations.collaborators)
           Translations.odometry1 Translations.metre_along_x).
  reflexivity.
Defined.

(** A cloud in frame ["/laser"] and an IMU message in frame ["imu"]. *)
Lemma forwarded_in_tracking_frame_witness :
  (exists T,
      LookupToTracking 7 (CheckNoLeadingSlash "/laser") = Some T /\
      rangefinder_call "scan" 7 Translations.origin [Translations.pt 1 0] =
      rangefinder_call "scan" 7 T [Translations.pt 1 0]) /\
  (exists T,
      Translations.lookup_frame (Translations.from_ros {| sec := 100; nsec := 0 |})
        (CheckNoLeadingSlash "imu") = Some T /\
      imu_call "imu" (Translations.imu_at "imu") Translations.origin =
      imu_call "imu" (Translations.imu_at "imu") T) /\
  calls (HandleImuMessage "imu" (Translations.imu_at "imu") Translations.bridge2) =
  [("imu"%string,
    SD_Imu
      {| imu_time := Translations.from_ros {| sec := 100; nsec := 0 |};
         imu_linear_acceleration := ToEigen (Translations.vector3 0 0 10);
         imu_angular_velocity := ToEigen (Translations.vector3 0 0 1) |})].
Proof.
  pose proof (proj2 (forwarded_in_tracking_frame (C := Translations.collaborators)
                       "imu" Translations.bridge2)
                (Translations.imu_at "imu")) as [Hforwarded Hforwards].
  split; [|split].
  - apply (proj1 (proj1 (forwarded_in_tracking_frame (C := Translations.collaborators)
                            "scan" Translations.bridge2)
                    7 "/laser"%string [Translations.pt 1 0])).
    left. reflexivity.
  - apply Hforwarded. left. reflexivity.
  - apply (Hforwards Translations.origin); reflexivity.
Defined.

(** C6 as stated fails: the lookup of an IMU message in frame
    ["base_link"] succeeds, the frame is a metre from the tracking frame,
    and the handler stops without forwarding a record. *)
Lemma imu_lookup_found_nothing_forwarded :
  imu_has_measurements (Translations.imu_at "base_link") = true /\
  imu_lookup (Translations.imu_at "base_link") = Some Translations.metre_along_x /\
  HandleImuMessage "imu" (Translations.imu_at "base_link") Translations.bridge2 =
  ([], Stopped) /\
  length (calls (HandleImuMessage "imu" (Translations.imu_at "base_link")
                   Translations.bridge2)) <> 1%nat.
Proof.
  split; [reflexivity|]. split; [reflexivity|]. split; [reflexivity|].
  vm_compute. discriminate.
Qed.

(** Odometry and IMU messages in unknown frames, in frames on the
    tracking frame and in a frame a metre from it. *)
Lemma odometry_imu_lookup_witness :
  HandleOdometryMessage "odom" Translations.odometry_unknown_frame Translations.bridge2 =
  ([], Done tt Translations.bridge2) /\
  (exists d, ToOdometryData Translations.odometry1 = Some d /\
             HandleOdometryMessage "odom" Translations.odometry1 Translations.bridge2 =
             ([("odom"%string, SD_Odometry d)], Done tt Translations.bridge2)) /\
  HandleImuMessage "imu" (Translations.imu_at "nowhere") Translations.bridge2 =
  ([], Done tt Translations.bridge2) /\
  HandleImuMessage "imu" (Translations.imu_at "imu") Translations.bridge2 =
  ([imu_call "imu" (Translations.imu_at "imu") Translations.origin],
   Done tt Translations.bridge2) /\
  HandleImuMessage "imu" (Translations.imu_at "base_link") Translations.bridge2 =
  ([], Stopped).
Proof.
  pose proof (odometry_imu_lookup (C := Translations.collaborators)
                "odom" Translations.bridge2) as [Hodom _].
  pose proof (odometry_imu_lookup (C := Translations.collaborators)
                "imu" Translations.bridge2) as [_ Himu].
  split; [|split; [|split; [|split]]].
  - apply (proj1 (Hodom Translations.odometry_unknown_frame)). reflexivity.
  - apply (proj2 (Hodom Translations.odometry1) Translations.metre_along_x).
    reflexivity.
  - apply (proj1 (proj1 (Himu (Translations.imu_at "nowhere")) eq_refl)). reflexivity.
  - apply (proj2 (proj1 (Himu (Translations.imu_at "imu")) eq_refl) Translations.origin).
    reflexivity.
  - apply (proj2 (proj1 (Himu (Translations.imu_at "base_link")) eq_refl)
             Translations.metre_along_x).
    reflexivity.
Defined.

(** The first half of [scan4], forwarded when two subdivisions are
    made. *)
Lemma HandleLaserScan_rebases_witness :
  exists (i : Z) (back : Vector4f) (T : Translations.vec3),
    let sub := subdivision (points Translations.cloud4) 2 i in
    let rebased := map (rebase (to_double (p_t back))) sub in
    let subdivision_time :=
      Translations.time4 + Translations.from_seconds (to_double (p_t back)) in
    0 <= i < 2 /\
    last sub = Some back /\
    (forall (j : nat) (point : Vector4f), sub !! j = Some point ->
       rebased !! j =
       Some {| p_x := p_x point; p_y := p_y point; p_z := p_z point;
               p_t := to_float (dsub (to_double (p_t point)) (to_double (p_t back))) |}) /\
    p_t <$> last rebased = Some zero /\
    Translations.lookup_frame subdivision_time (CheckNoLeadingSlash "/laser") = Some T /\
    Translations.first_half = rangefinder_call "scan" subdivision_time T rebased.
Proof.
  apply (HandleLaserScan_rebases (C := Translations.collaborators)
           "scan" Translations.time4 "/laser" Translations.cloud4 Translations.bridge2
           Translations.first_half).
  left. reflexivity.
Defined.

(** The four points of [scan4] in two subdivisions, and the first of the
    two handled by a bridge that has recorded no time. *)
Lemma subdivisions_partition_witness :
  subdivision (points Translations.cloud4) 2 1 =
  slice (4 * 1 / 2) (4 * (1 + 1) / 2) (points Translations.cloud4) /\
  HandleLaserScan_body "scan" Translations.time4 "/laser" Translations.cloud4 2 0
    Translations.bridge2 =
  ([Translations.first_half],
   Done tt (record_subdivision_time Translations.bridge2 "scan"
              (Translations.time4 +
               Translations.from_seconds (to_double (Translations.quarter (-2)))))) /\
  concat (map (subdivision (points Translations.cloud4) 2) (seqZ 0 2)) =
  points Translations.cloud4.
Proof.
  pose proof (subdivisions_partition (C := Translations.collaborators)
                Translations.cloud4 2 ltac:(lia) ltac:(simpl; lia)) as (Hslice & _ & Hall).
  split; [|split].
  - apply (proj1 (Hslice 1 ltac:(lia))).
  - destruct (proj2 (proj2 (Hslice 0 ltac:(lia))) ltac:(discriminate))
      as (back & Hback & Hbody).
    rewrite Hbody. injection Hback as <-. reflexivity.
  - exact Hall.
Defined.

(** The first half of [scan4] once the end of the scan is recorded, and
    [scan4] handled twice. *)
Lemma out_of_order_subdivisions_ignored_witness :
  HandleLaserScan_body "scan" Translations.time4 "/laser" Translations.cloud4 2 0
    Translations.recorded4 = ([], Done tt Translations.recorded4) /\
  StronglySorted Z.lt
    (subdivision_times "scan"
       (run [LaserScanMessage "scan" Translations.scan4;
             LaserScanMessage "scan" Translations.scan4] Translations.bridge2).1).
Proof.
  pose proof (out_of_order_subdivisions_ignored (C := Translations.collaborators) "scan")
    as [Hskip Hsorted].
  split.
  - apply (Hskip Translations.time4 "/laser"%string Translations.cloud4 2 0
             Translations.recorded4 (Translations.pt 2 (-2)) Translations.time4);
      [lia | simpl; lia | lia | reflexivity | reflexivity | vm_compute; discriminate].
  - apply Hsorted.
Defined.

(** C4 as stated fails: handling [scan4] records a time for its sensor,
    and the records forwarded for it differ between the history that ends
    in it alone and the one in which it comes twice. *)
Lemma laser_scan_depends_on_history :
  let m := LaserScanMessage "scan" Translations.scan4 in
  previous_subdivision_time Translations.bridge2 "scan" = None /\
  (fun st => previous_subdivision_time st "scan") <$> final (Handle m Translations.bridge2) =
  Some (Some Translations.time4) /\
  (run ([] ++ [m]) Translations.bridge2).1 =
  [(m, [Translations.first_half; Translations.second_half])] /\
  (run ([m] ++ [m]) Translations.bridge2).1 =
  [(m, [Translations.first_half; Translations.second_half]); (m, [])].
Proof.
  cbv zeta. split; [reflexivity|].
  split; [reflexivity|].
  split; reflexivity.
Qed.

(** An odometry message at the end of two histories. *)
Lemma state_free_messages_witness :
  exists (cs : list Call) (completes : bool),
    (forall st, Handle (OdometryMessage "odom" Translations.odometry1) st =
                (cs, if completes then Done tt st else Stopped)) /\
    (forall (history1 history2 : list Message) (st1 st2 st1' st2' : SensorBridge),
        (run history1 st1).2 = Some st1' -> (run history2 st2).2 = Some st2' ->
        (run (history1 ++ [OdometryMessage "odom" Translations.odometry1]) st1).1 =
        (run history1 st1).1 ++ [(OdometryMessage "odom" Translations.odometry1, cs)] /\
        (run (history2 ++ [OdometryMessage "odom" Translations.odometry1]) st2).1 =
        (run history2 st2).1 ++ [(OdometryMessage "odom" Translations.odometry1, cs)]).
Proof.
  apply (state_free_messages (C := Translations.collaborators)
           (OdometryMessage "odom" Translations.odometry1)).
  reflexivity.
Defined.

(** Three NavSatFix messages, the first of them without a fix. *)
Lemma ecef_to_local_frame_write_once_witness :
  ecef_to_local_frame_ (set_ecef_to_local_frame Translations.bridge2
                          (local_frame_of (Translations.fix_at 2 0 30 40))) =
  frame_in_use Translations.bridge2 Translations.fixes /\
  [fixed_frame_pose_call "gps" (Translations.fix_at 3 0 50 60)
     (Some (local_frame_of (Translations.fix_at 2 0 30 40)))] =
  [fixed_frame_pose_call "gps" (Translations.fix_at 3 0 50 60)
     (if status (Translations.fix_at 3 0 50 60) =? STATUS_NO_FIX then None
      else frame_in_use Translations.bridge2 Translations.fixes)].
Proof.
  pose proof (ecef_to_local_frame_write_once (C := Translations.collaborators))
    as (_ & Hframe & Hcalls).
  split.
  - apply (Hframe Translations.fixes Translations.bridge2). reflexivity.
  - apply (Hcalls Translations.fixes Translations.bridge2).
    right. right. left. reflexivity.
Defined.

(** The cloud [cloud3] read as an Ouster cloud and as a cloud of an
    unknown sensor type. *)
Lemma HandlePointCloud2Message_times_witness :
  HandlePointCloud2Message "pc" Translations.cloud3 "ouster" Translations.bridge2 =
  HandleRangefinder "pc"
    (Translations.from_ros {| sec := 100; nsec := 0 |} +
     Translations.from_seconds
       (to_double (ouster_seconds {| ou_x := float_of_Z 3; ou_y := zero; ou_z := zero;
                                     ou_t := 2000000 |})))
    "laser"
    (ouster_cloud (Translations.cloud_ouster Translations.cloud3)
       {| ou_x := float_of_Z 3; ou_y := zero; ou_z := zero; ou_t := 2000000 |})
    Translations.bridge2 /\
  HandlePointCloud2Message "pc" Translations.cloud3 "sick" Translations.bridge2 =
  HandleRangefinder "pc" (Translations.from_ros {| sec := 100; nsec := 0 |}) "laser"
    (xyzi_cloud (Translations.cloud_xyzi Translations.cloud3)) Translations.bridge2.
Proof.
  split.
  - apply (proj1 (HandlePointCloud2Message_times (C := Translations.collaborators)
                    "pc" Translations.cloud3 "ouster" Translations.bridge2));
      reflexivity.
  - apply (proj2 (proj2 (proj2
             (HandlePointCloud2Message_times (C := Translations.collaborators)
                "pc" Translations.cloud3 "sick" Translations.bridge2))));
      discriminate.
Defined.

(** * Further properties *)

(** ** Frame ids *)

(** X1: the frame id [CheckNoLeadingSlash] returns is the given one with
    at most one character, a ['/'], taken from its front, and it is empty
    only when the given one is. *)
Theorem CheckNoLeadingSlash_suffix (frame_id : string) :
  (CheckNoLeadingSlash frame_id = frame_id \/
   frame_id = String "/" (CheckNoLeadingSlash frame_id)) /\
  (frame_id <> EmptyString -> CheckNoLeadingSlash frame_id <> EmptyString).
Proof.
  destruct frame_id as [|c rest]; [split; [now left | intros []; reflexivity]|].
  destruct (Ascii.eqb_spec c "/"%char) as [->|Hc].
  - destruct rest as [|c' rest].
    + split; [now left | discriminate].
    + rewrite CheckNoLeadingSlash_slash. split; [now right | discriminate].
  - rewrite (CheckNoLeadingSlash_other c rest Hc). split; [now left | discriminate].
Qed.

(** A frame id is stripped twice when it begins with two slashes. *)
Lemma CheckNoLeadingSlash_suffix_witness :
  CheckNoLeadingSlash "//a" <> EmptyString.
Proof. apply (proj2 (CheckNoLeadingSlash_suffix "//a")). discriminate. Defined.

Section FrameIds.

Context `{C : Collaborators}.

Lemma CheckNoLeadingSlash_slashed (frame : string) :
  frame <> EmptyString -> String.get 0 frame <> Some "/"%char ->
  CheckNoLeadingSlash (String "/" frame) = CheckNoLeadingSlash frame.
Proof.
  intros Hne Hget. destruct frame as [|c rest]; [now destruct Hne|].
  rewrite CheckNoLeadingSlash_slash. symmetry. apply CheckNoLeadingSlash_other.
  intros ->. now apply Hget.
Qed.

(** X2: a frame id written with a leading slash is looked up as the same
    frame id without it: point clouds, odometry and IMU messages in frame
    ["/f"] are handled as those in frame ["f"]. *)
Theorem leading_slash_ignored (frame : string) :
  frame <> EmptyString -> String.get 0 frame <> Some "/"%char ->
  (forall sensor_id time ranges st,
      HandleRangefinder sensor_id time (String "/" frame) ranges st =
      HandleRangefinder sensor_id time frame ranges st) /\
  (forall header pose,
      ToOdometryData {| odom_header := header; child_frame_id := String "/" frame;
                        odom_pose := pose |} =
      ToOdometryData {| odom_header := header; child_frame_id := frame;
                        odom_pose := pose |}) /\
  (forall sensor_id stamp cov_a cov_w a w st,
      HandleImuMessage sensor_id
        {| imu_header := {| stamp := stamp; frame_id := String "/" frame |};
           linear_acceleration_covariance0 := cov_a;
           angular_velocity_covariance0 := cov_w;
           linear_acceleration := a; angular_velocity := w |} st =
      HandleImuMessage sensor_id
        {| imu_header := {| stamp := stamp; frame_id := frame |};
           linear_acceleration_covariance0 := cov_a;
           angular_velocity_covariance0 := cov_w;
           linear_acceleration := a; angular_velocity := w |} st).
Proof.
  intros Hne Hget. pose proof (CheckNoLeadingSlash_slashed frame Hne Hget) as Hsame.
  split; [|split].
  - intros. unfold HandleRangefinder. now rewrite Hsame.
  - intros. unfold ToOdometryData. cbn [child_frame_id odom_header odom_pose].
    now rewrite Hsame.
  - intros. rewrite !HandleImuMessage_cases. unfold imu_lookup, imu_call.
    cbn [imu_header frame_id stamp]. now rewrite Hsame.
Qed.

End FrameIds.

(** ** More on laser scans *)

Section Balance.

Variables (n k : Z).
Hypothesis Hk : 0 < k < 2 ^ 31.
Hypothesis Hn : 0 <= n.
Hypothesis Hnk : n * k < 2 ^ 64.

Lemma slice_length_bounds (i : Z) :
  0 <= i < k ->
  n / k <= end_index n k i - start_index n k i <= n / k + 1.
Proof.
  intros Hi. rewrite (end_index_exact n k), (start_index_exact n k) by lia.
  pose proof (Z.div_mod n k ltac:(lia)) as Hdm.
  pose proof (Z.mod_pos_bound n k ltac:(lia)) as Hr.
  set (q := n / k) in *. set (r := n mod k) in *.
  assert (Hsplit : forall j, n * j / k = q * j + r * j / k).
  { intros j. replace (n * j) with (q * j * k + r * j) by (rewrite Hdm; ring).
    rewrite Z.div_add_l by lia. reflexivity. }
  rewrite !Hsplit.
  assert (r * i / k <= r * (i + 1) / k) by (apply Z.div_le_mono; nia).
  assert (r * (i + 1) / k <= r * i / k + 1).
  { rewrite <- (Z.div_add (r * i) 1 k) by lia. apply Z.div_le_mono; nia. }
  lia.
Qed.

End Balance.

Section MoreLaserScan.

Context `{C : Collaborators}.

(** X3: the subdivisions of a scan are balanced: with [k] subdivisions of
    [n] points each has [n / k] points or one more, so none is empty when
    the scan has at least [k] points. *)
Theorem subdivisions_balanced (pts : TimedPointCloud) (k i : Z) :
  0 < k < 2 ^ 31 ->
  Z.of_nat (length pts) * k < 2 ^ 64 ->
  0 <= i < k ->
  let n := Z.of_nat (length pts) in
  n / k <= Z.of_nat (length (subdivision pts k i)) <= n / k + 1 /\
  (k <= n -> subdivision pts k i <> []).
Proof.
  intros Hk Hnk Hi n. assert (Hn : 0 <= n) by (subst n; lia).
  pose proof (index_bounds n k Hk Hn Hnk i Hi) as (Hb0 & Hb1 & Hb2).
  pose proof (slice_length_bounds n k Hk Hn Hnk i Hi) as Hlen.
  assert (Hsize : Z.of_nat (length (subdivision pts k i)) =
                  end_index n k i - start_index n k i).
  { unfold subdivision. fold n. apply length_slice; [lia | fold n; lia]. }
  split; [lia|].
  intros Hkn Hnil. rewrite Hnil in Hsize. cbn [length] in Hsize.
  assert (1 <= n / k) by (apply Z.div_le_lower_bound; lia).
  lia.
Qed.

(** X4: [HandleLaserScan] returns at once on a scan without points, ends
    the process when the time of the scan's last point is positive or not
    a number, and forwards nothing when no subdivisions are asked for. *)
Theorem HandleLaserScan_edge_cases (sensor_id : string) (time : Time)
    (frame_id : string) (pts : PointCloudWithIntensities) (st : SensorBridge) :
  (points pts = [] ->
   HandleLaserScan sensor_id time frame_id pts st = ([], Done tt st)) /\
  (forall back, last (points pts) = Some back -> leb (p_t back) zero = false ->
     HandleLaserScan sensor_id time frame_id pts st = ([], Stopped)) /\
  (forall back, last (points pts) = Some back -> leb (p_t back) zero = true ->
     num_subdivisions_per_laser_scan_ st = 0 ->
     HandleLaserScan sensor_id time frame_id pts st = ([], Done tt st)).
Proof.
  split; [|split].
  - intros Hnil. unfold HandleLaserScan. now rewrite Hnil.
  - intros back Hback Hle. unfold HandleLaserScan. now rewrite Hback, Hle.
  - intros back Hback Hle Hk.
    rewrite (HandleLaserScan_runs_loop _ _ _ _ _ back Hback Hle) by lia.
    now rewrite Hk.
Qed.

Lemma HandleLaserScan_body_at_most_one (sensor_id : string) (time : Time)
    (frame_id : string) (pts : PointCloudWithIntensities) (k i : Z) (st : SensorBridge) :
  (length (calls (HandleLaserScan_body sensor_id time frame_id pts k i st)) <= 1)%nat.
Proof.
  rewrite HandleLaserScan_body_cases. cbv zeta.
  repeat match goal with
         | |- context [if ?b then _ else _] => destruct b
         | |- context [match ?o with Some _ => _ | None => _ end] => destruct o
         end; cbn; lia.
Qed.

Lemma HandleLaserScan_loop_at_most (remaining : nat) (sensor_id : string) (time : Time)
    (frame_id : string) (pts : PointCloudWithIntensities) (k i : Z) (st : SensorBridge) :
  (length (calls (HandleLaserScan_loop remaining sensor_id time frame_id pts k i st))
   <= remaining)%nat.
Proof.
  revert i st. induction remaining as [|remaining IH]; intros i st; [cbn; lia|].
  cbn [HandleLaserScan_loop]. rewrite calls_bind, length_app.
  pose proof (HandleLaserScan_body_at_most_one sensor_id time frame_id pts k i st).
  destruct (HandleLaserScan_body _ _ _ _ _ _ _) as [cs [[] st'|]]; cbn [calls fst] in *.
  - specialize (IH (i + 1) st'). lia.
  - cbn. lia.
Qed.

(** X5: [HandleLaserScan] forwards at most one record for each
    subdivision it is set to make, whatever the scan. *)
Theorem HandleLaserScan_at_most (sensor_id : string) (time : Time)
    (frame_id : string) (pts : PointCloudWithIntensities) (st : SensorBridge) :
  Z.of_nat (length (calls (HandleLaserScan sensor_id time frame_id pts st))) <=
  Z.max 0 (num_subdivisions_per_laser_scan_ st).
Proof.
  unfold HandleLaserScan. destruct (last (points pts)) as [back|]; [|cbn; lia].
  unfold CHECK. destruct (leb (p_t back) zero); [|cbn; lia].
  unfold bind, ret, get. cbv beta iota.
  destruct (num_subdivisions_per_laser_scan_ st <? 0) eqn:Hneg; [cbn; lia|].
  pose proof (HandleLaserScan_loop_at_most
                (Z.to_nat (num_subdivisions_per_laser_scan_ st)) sensor_id time frame_id
                pts (num_subdivisions_per_laser_scan_ st) 0 st) as Hloop.
  destruct (HandleLaserScan_loop _ _ _ _ _ _ _ _) as [cs r].
  cbn [calls fst app] in *. apply Z.ltb_ge in Hneg. lia.
Qed.

Lemma subdivision_whole (pts : TimedPointCloud) :
  Z.of_nat (length pts) < 2 ^ 64 ->
  start_index (Z.of_nat (length pts)) 1 0 = 0 /\
  end_index (Z.of_nat (length pts)) 1 0 = Z.of_nat (length pts) /\
  subdivision pts 1 0 = pts.
Proof.
  intros Hlen. set (n := Z.of_nat (length pts)).
  assert (Hs : start_index n 1 0 = 0) by (apply start_index_0; subst n; lia).
  assert (He : end_index n 1 0 = n).
  { rewrite end_index_start_index by (subst n; lia). apply start_index_last; subst n; lia. }
  split; [exact Hs|]. split; [exact He|].
  unfold subdivision, slice. fold n. rewrite Hs, He. cbn [Z.to_nat drop].
  apply take_ge. subst n. lia.
Qed.

Lemma eqb_zero_zero : eqb zero zero = true.
Proof. reflexivity. Qed.

(** X6: with one subdivision per scan, a scan whose last point has a
    finite time not above [0] and whose end is after the time recorded for
    its sensor is forwarded whole, in one record, re-based by its last
    time and stamped with the scan time plus it; the stamp is recorded for
    the sensor, also when no transform is found and nothing is
    forwarded. *)
Theorem single_subdivision (sensor_id : string) (time : Time) (frame_id : string)
    (pts : PointCloudWithIntensities) (st : SensorBridge) (back : Vector4f) :
  num_subdivisions_per_laser_scan_ st = 1 ->
  Z.of_nat (length (points pts)) < 2 ^ 64 ->
  last (points pts) = Some back ->
  leb (p_t back) zero = true ->
  is_finite (to_double (p_t back)) = true ->
  ignored st sensor_id (subdivision_time_of time back) = false ->
  HandleLaserScan sensor_id time frame_id pts st =
  (match LookupToTracking (subdivision_time_of time back)
                          (CheckNoLeadingSlash frame_id) with
   | Some T =>
       [rangefinder_call sensor_id (subdivision_time_of time back) T
          (map (rebase (to_double (p_t back))) (points pts))]
   | None => []
   end,
   Done tt (record_subdivision_time st sensor_id (subdivision_time_of time back))).
Proof.
  intros Hk Hlen Hback Hle Hfin Hign.
  rewrite (HandleLaserScan_runs_loop _ _ _ _ _ back Hback Hle) by lia.
  rewrite Hk. change (Z.to_nat 1) with 1%nat. cbn [HandleLaserScan_loop].
  unfold bind at 1. rewrite HandleLaserScan_body_cases. cbv zeta.
  destruct (subdivision_whole (points pts) Hlen) as (Hs & He & Hwhole).
  rewrite Hs, He, Hwhole, Hback.
  assert (Hpos : 0 < Z.of_nat (length (points pts))).
  { destruct (points pts); [discriminate | cbn; lia]. }
  replace (0 <=? Z.of_nat (length (points pts))) with true by (symmetry; lia).
  rewrite Z.leb_refl. cbn [andb negb].
  replace (0 =? Z.of_nat (length (points pts))) with false by (symmetry; lia).
  unfold subdivision_time_of in *. rewrite Hign.
  cbn [rebase p_t]. rewrite (rebase_back_finite _ Hfin), eqb_zero_zero.
  destruct (LookupToTracking _ _); reflexivity.
Qed.

Lemma last_slice_elem (b e : Z) (pts : TimedPointCloud) (back : Vector4f) :
  last (slice b e pts) = Some back -> In back pts.
Proof.
  intros Hlast. apply last_Some_elem_of in Hlast. unfold slice in Hlast.
  apply list_elem_of_In. eapply subseteq_drop, subseteq_take. exact Hlast.
Qed.

Lemma HandleLaserScan_body_completes (sensor_id : string) (time : Time)
    (frame_id : string) (pts : PointCloudWithIntensities) (k i : Z) (st : SensorBridge) :
  0 < k < 2 ^ 31 ->
  Z.of_nat (length (points pts)) * k < 2 ^ 64 ->
  0 <= i < k ->
  Forall (fun point => is_finite (to_double (p_t point)) = true) (points pts) ->
  exists st', final (HandleLaserScan_body sensor_id time frame_id pts k i st) = Some st'.
Proof.
  intros Hk Hnk Hi Hfin. rewrite HandleLaserScan_body_cases. cbv zeta.
  pose proof (index_bounds (Z.of_nat (length (points pts))) k Hk ltac:(lia) Hnk i Hi)
    as (Hb0 & Hb1 & Hb2).
  replace (start_index _ k i <=? end_index _ k i) with true by (symmetry; lia).
  replace (end_index _ k i <=? _) with true by (symmetry; lia).
  cbn [andb negb]. destruct (_ =? _) eqn:Hempty; [now eexists|].
  destruct (last (subdivision _ _ _)) as [back|] eqn:Hback.
  - destruct (ignored _ _ _); [now eexists|].
    assert (Hb : is_finite (to_double (p_t back)) = true).
    { rewrite Forall_forall in Hfin. apply Hfin.
      apply list_elem_of_In. eapply last_slice_elem. exact Hback. }
    cbn [rebase p_t]. rewrite (rebase_back_finite _ Hb), eqb_zero_zero.
    destruct (LookupToTracking _ _); now eexists.
  - apply last_None in Hback. unfold subdivision in Hback.
    apply slice_nil in Hback; [|lia|lia]. apply Z.eqb_neq in Hempty. lia.
Qed.

Lemma HandleLaserScan_loop_completes (sensor_id : string) (time : Time)
    (frame_id : string) (pts : PointCloudWithIntensities) (k : Z) :
  0 < k < 2 ^ 31 ->
  Z.of_nat (length (points pts)) * k < 2 ^ 64 ->
  Forall (fun point => is_finite (to_double (p_t point)) = true) (points pts) ->
  forall (remaining : nat) (i : Z) (st : SensorBridge),
    0 <= i -> i + Z.of_nat remaining <= k ->
    exists st',
      final (HandleLaserScan_loop remaining sensor_id time frame_id pts k i st) = Some st'.
Proof.
  intros Hk Hnk Hfin. induction remaining as [|remaining IH]; intros i st Hi Hr.
  - now eexists.
  - cbn [HandleLaserScan_loop]. rewrite final_bind.
    destruct (HandleLaserScan_body_completes sensor_id time frame_id pts k i st Hk Hnk
                ltac:(lia) Hfin) as [st1 Hst1].
    destruct (HandleLaserScan_body _ _ _ _ _ _ _) as [cs [[] st1'|]]; [|discriminate].
    apply IH; lia.
Qed.

(** X7: [HandleLaserScan] runs to its end, without a failed check, on
    every scan whose point times are finite and whose last point's time is
    not above [0]: re-basing then always leaves [0] in the last point of a
    subdivision. *)
Theorem HandleLaserScan_completes (sensor_id : string) (time : Time)
    (frame_id : string) (pts : PointCloudWithIntensities) (st : SensorBridge)
    (back : Vector4f) :
  0 < num_subdivisions_per_laser_scan_ st < 2 ^ 31 ->
  Z.of_nat (length (points pts)) * num_subdivisions_per_laser_scan_ st < 2 ^ 64 ->
  last (points pts) = Some back ->
  leb (p_t back) zero = true ->
  Forall (fun point => is_finite (to_double (p_t point)) = true) (points pts) ->
  exists st', final (HandleLaserScan sensor_id time frame_id pts st) = Some st'.
Proof.
  intros Hk Hnk Hback Hle Hfin.
  rewrite (HandleLaserScan_runs_loop _ _ _ _ _ back Hback Hle) by lia.
  apply HandleLaserScan_loop_completes; try assumption; lia.
Qed.

(** *** A scan handled again *)

Lemma ignored_reached (st : SensorBridge) (sensor_id : string) (t : Time) :
  ignored st sensor_id t = true <-> reached (previous_subdivision_time st sensor_id) t.
Proof.
  unfold ignored. destruct (previous_subdivision_time st sensor_id) as [p|]; simpl.
  - rewrite Z.geb_le. reflexivity.
  - split; [discriminate | tauto].
Qed.

Lemma HandleLaserScan_body_settled (sensor_id : string) (time : Time)
    (frame_id : string) (pts : PointCloudWithIntensities) (k i : Z)
    (st st1 st2 : SensorBridge) :
  final (HandleLaserScan_body sensor_id time frame_id pts k i st) = Some st1 ->
  (forall t, reached (previous_subdivision_time st1 sensor_id) t ->
             reached (previous_subdivision_time st2 sensor_id) t) ->
  HandleLaserScan_body sensor_id time frame_id pts k i st2 = ([], Done tt st2).
Proof.
  rewrite !HandleLaserScan_body_cases. cbv zeta.
  destruct (negb _); [discriminate|].
  destruct (_ =? _); [reflexivity|].
  destruct (last (subdivision _ _ _)) as [back|]; [|discriminate].
  set (t := time + FromSeconds (to_double (p_t back))).
  intros Hst1 Hmono.
  assert (Hreached : reached (previous_subdivision_time st1 sensor_id) t).
  { destruct (ignored st sensor_id t) eqn:Hign.
    - injection Hst1 as <-. now apply ignored_reached.
    - destruct (eqb _ _); [|discriminate].
      assert (st1 = record_subdivision_time st sensor_id t) as ->.
      { destruct (LookupToTracking _ _); now injection Hst1 as <-. }
      rewrite previous_after_record, String.eqb_refl. simpl. lia. }
  apply Hmono, ignored_reached in Hreached. now rewrite Hreached.
Qed.

Lemma HandleLaserScan_loop_settled (sensor_id : string) (time : Time)
    (frame_id : string) (pts : PointCloudWithIntensities) (k : Z)
    (remaining : nat) (i : Z) (st st' : SensorBridge) :
  final (HandleLaserScan_loop remaining sensor_id time frame_id pts k i st) = Some st' ->
  (forall t, reached (previous_subdivision_time st sensor_id) t ->
             reached (previous_subdivision_time st' sensor_id) t) /\
  forall st2,
    (forall t, reached (previous_subdivision_time st' sensor_id) t ->
               reached (previous_subdivision_time st2 sensor_id) t) ->
    HandleLaserScan_loop remaining sensor_id time frame_id pts k i st2 = ([], Done tt st2).
Proof.
  revert i st. induction remaining as [|remaining IH]; intros i st.
  - intros [= <-]. split; [auto | reflexivity].
  - cbn [HandleLaserScan_loop]. rewrite final_bind.
    destruct (HandleLaserScan_body sensor_id time frame_id pts k i st)
      as [cs [[] st1|]] eqn:Hbody; [|discriminate].
    intros Hrest. destruct (IH _ _ Hrest) as [Hmono Hsettled].
    destruct (ordered_body sensor_id sensor_id time frame_id pts k i st)
      as (_ & _ & Hfin).
    destruct (Hfin st1) as [Hmono1 _]; [now rewrite Hbody|].
    split; [auto|].
    intros st2 Hst2. unfold bind.
    rewrite (HandleLaserScan_body_settled sensor_id time frame_id pts k i st st1 st2).
    + now rewrite (Hsettled st2 Hst2).
    + now rewrite Hbody.
    + auto.
Qed.

(** X8: a laser scan that was handled to its end is ignored as a whole
    when it comes again: nothing is forwarded for it and the state stays
    as the first handling left it. *)
Theorem laser_scan_replay (sensor_id : string) (time : Time) (frame_id : string)
    (pts : PointCloudWithIntensities) (st st' : SensorBridge) :
  final (HandleLaserScan sensor_id time frame_id pts st) = Some st' ->
  HandleLaserScan sensor_id time frame_id pts st' = ([], Done tt st').
Proof.
  intros Hfirst.
  assert (Hk : num_subdivisions_per_laser_scan_ st' = num_subdivisions_per_laser_scan_ st).
  { now apply (preserves_HandleLaserScan num_subdivisions_per_laser_scan_
                 sensor_id time frame_id pts). }
  revert Hfirst. unfold HandleLaserScan.
  destruct (last (points pts)) as [back|]; [|now intros [= <-]].
  unfold CHECK. destruct (leb (p_t back) zero); [|discriminate].
  unfold bind, ret, get. cbv beta iota. rewrite Hk.
  destruct (num_subdivisions_per_laser_scan_ st <? 0); [discriminate|].
  destruct (HandleLaserScan_loop _ _ _ _ _ _ _ st) as [cs r] eqn:Hloop.
  intros Hfinal.
  destruct (HandleLaserScan_loop_settled sensor_id time frame_id pts
              (num_subdivisions_per_laser_scan_ st)
              (Z.to_nat (num_subdivisions_per_laser_scan_ st)) 0 st st')
    as [_ Hsettled].
  { rewrite Hloop. exact Hfinal. }
  now rewrite (Hsettled st' (fun t H => H)).
Qed.

End MoreLaserScan.

(** ** More on histories *)

Section MoreHistories.

Context `{C : Collaborators}.

Lemma Handle_preserves {X : Type} (part : SensorBridge -> X) (m : Message) :
  (is_laser_scan m = true ->
   forall st t, part (record_subdivision_time st (sensor_id_of m) t) = part st) ->
  (forall st frame, part (set_ecef_to_local_frame st frame) = part st) ->
  preserves part (Handle m).
Proof.
  intros Hrecord Hframe. destruct (keeps_no_state m) eqn:Hfree.
  - now apply state_free_preserves, Handle_state_free.
  - destruct m; try discriminate; cbn [Handle keeps_no_state sensor_id_of] in *.
    + intros st st'. rewrite HandleNavSatFixMessage_cases, Hfree.
      destruct (ecef_to_local_frame_ st); intros [= <-]; [reflexivity | apply Hframe].
    + unfold HandleLaserScanMessage. destruct (ToPointCloudWithIntensities msg).
      apply preserves_HandleLaserScan. now apply Hrecord.
    + unfold HandleMultiEchoLaserScanMessage.
      destruct (ToPointCloudWithIntensities_multi_echo msg).
      apply preserves_HandleLaserScan. now apply Hrecord.
Qed.

Lemma run_preserves {X : Type} (part : SensorBridge -> X) (history : list Message) :
  Forall (fun m => preserves part (Handle m)) history ->
  forall st st', (run history st).2 = Some st' -> part st' = part st.
Proof.
  induction 1 as [|m rest Hm _ IH]; intros st st'.
  - now intros [= <-].
  - rewrite run_cons. destruct (final (Handle m st)) as [st1|] eqn:Hst1; [|discriminate].
    cbn [snd]. intros Hrest. rewrite (IH _ _ Hrest). now apply Hm.
Qed.

(** X9: no message changes the number of subdivisions the bridge was
    built with. *)
Theorem num_subdivisions_constant (history : list Message) (st st' : SensorBridge) :
  (run history st).2 = Some st' ->
  num_subdivisions_per_laser_scan_ st' = num_subdivisions_per_laser_scan_ st.
Proof.
  apply run_preserves. apply Forall_forall. intros m _.
  apply Handle_preserves; reflexivity.
Qed.

(** X10: the time recorded for a sensor is written by the laser scans of
    that sensor alone: a history without one leaves it as it was, be it
    absent. *)
Theorem recorded_time_of_other_sensors (sensor_id : string) (history : list Message)
    (st st' : SensorBridge) :
  Forall (fun m => scan_of sensor_id m = false) history ->
  (run history st).2 = Some st' ->
  previous_subdivision_time st' sensor_id = previous_subdivision_time st sensor_id.
Proof.
  intros Hnone. apply (run_preserves (fun st => previous_subdivision_time st sensor_id)).
  eapply Forall_impl; [exact Hnone|]. intros m Hm.
  apply Handle_preserves; [|reflexivity].
  intros Hlaser st0 t. rewrite previous_after_record.
  unfold scan_of in Hm. rewrite Hlaser in Hm. cbn [andb] in Hm. now rewrite Hm.
Qed.

(** X11: in the course of a history the time recorded for a sensor never
    goes back, and no subdivision forwarded for the sensor is later than
    the time recorded at the end. *)
Theorem recorded_time_never_decreases (sensor_id : string) (history : list Message)
    (st st' : SensorBridge) :
  (run history st).2 = Some st' ->
  (forall t, reached (previous_subdivision_time st sensor_id) t ->
             reached (previous_subdivision_time st' sensor_id) t) /\
  Forall (reached (previous_subdivision_time st' sensor_id))
         (subdivision_times sensor_id (run history st).1).
Proof.
  revert st. induction history as [|m rest IH]; intros st.
  - intros [= <-]. split; [auto | constructor].
  - rewrite run_cons. destruct (final (Handle m st)) as [st1|] eqn:Hst1; [|discriminate].
    cbn [fst snd]. intros Hrest. destruct (IH _ Hrest) as [Hmono Hbound].
    unfold subdivision_times in *. cbn [flat_map fst snd].
    destruct (is_laser_scan m) eqn:Hm.
    + destruct (Handle_ordered sensor_id m Hm st) as (_ & _ & Hfin).
      destruct (Hfin st1 Hst1) as [Hmono1 Hbound1]. split; [auto|].
      apply Forall_app. split; [|assumption].
      eapply Forall_impl; [exact Hbound1|]. auto.
    + pose proof (Handle_preserves_times m Hm st st1 Hst1) as Hkeep.
      unfold previous_subdivision_time in *. rewrite <- Hkeep. now split.
Qed.

End MoreHistories.

(** ** More on the records forwarded *)

Section Records.

Context `{C : Collaborators}.

Lemma HandleRangefinder_record (sensor_id : string) (time : Time) (frame_id : string)
    (ranges : TimedPointCloud) (st : SensorBridge) (call : Call) :
  In call (calls (HandleRangefinder sensor_id time frame_id ranges st)) ->
  exists d, call = (sensor_id, SD_TimedPointCloud d).
Proof.
  unfold HandleRangefinder. destruct (LookupToTracking _ _); [|intros []].
  intros [<- | []]. now eexists.
Qed.

Lemma HandleLaserScan_record (sensor_id : string) (time : Time) (frame_id : string)
    (pts : PointCloudWithIntensities) (st : SensorBridge) (call : Call) :
  In call (calls (HandleLaserScan sensor_id time frame_id pts st)) ->
  exists d, call = (sensor_id, SD_TimedPointCloud d).
Proof.
  intros Hin. apply HandleLaserScan_calls in Hin as (i & st' & _ & Hin).
  rewrite HandleLaserScan_body_cases in Hin. cbv zeta in Hin.
  repeat match type of Hin with
         | context [if ?b then _ else _] => destruct b
         | context [match ?o with Some _ => _ | None => _ end] => destruct o
         end; try destruct Hin as [<- | []]; try destruct Hin.
  now eexists.
Qed.

(** X12: every record a handler forwards goes under the sensor id its
    message came with and is of the kind of the message: odometry for
    odometry, a fixed-frame pose for NavSatFix, landmarks for landmarks,
    IMU data for IMU and a timed point cloud for laser scans and point
    clouds. *)
Theorem records_match_message (m : Message) (st : SensorBridge) (call : Call) :
  In call (calls (Handle m st)) ->
  call.1 = sensor_id_of m /\ record_of m call.2 = true.
Proof.
  destruct m as [sensor_id msg|sensor_id msg|sensor_id msg|sensor_id msg
                |sensor_id msg|sensor_id msg|sensor_id msg sensor_type];
    cbn [Handle sensor_id_of].
  - unfold HandleOdometryMessage. destruct (ToOdometryData msg); [|intros []].
    intros [<- | []]. now split.
  - rewrite HandleNavSatFixMessage_cases.
    destruct (_ =? _); [|destruct (ecef_to_local_frame_ st)];
      intros [<- | []]; now split.
  - intros [<- | []]. now split.
  - rewrite HandleImuMessage_cases.
    destruct (imu_has_measurements msg); [|intros []].
    destruct (imu_lookup msg) as [T|]; [|intros []].
    destruct (imu_colocated T); [|intros []].
    intros [<- | []]. now split.
  - unfold HandleLaserScanMessage. destruct (ToPointCloudWithIntensities msg).
    intros Hin. apply HandleLaserScan_record in Hin as [d ->]. now split.
  - unfold HandleMultiEchoLaserScanMessage.
    destruct (ToPointCloudWithIntensities_multi_echo msg).
    intros Hin. apply HandleLaserScan_record in Hin as [d ->]. now split.
  - unfold HandlePointCloud2Message.
    repeat match goal with
           | |- context [if ?b then _ else _] => destruct b
           | |- context [match last ?l with _ => _ end] => destruct (last l)
           end;
      try (intros []);
      intros Hin; apply HandleRangefinder_record in Hin as [d ->]; now split.
Qed.

Lemma last_kept {P A : Type} (keep : P -> bool) (mk : P -> A) (pts : list P) (back : P) :
  last pts = Some back -> keep back = true ->
  last (map mk (List.filter keep pts)) = Some (mk back).
Proof.
  intros Hlast Hkeep. apply last_Some in Hlast as [front ->].
  rewrite List.filter_app, List.map_app. cbn [List.filter]. rewrite Hkeep.
  apply last_snoc.
Qed.

(** X13: in the cloud [HandlePointCloud2Message] makes of an Ouster,
    Velodyne or Robosense message the last point, when it is kept and its
    time is finite, has time exactly [0]: the times are relative to the
    last point of the raw cloud. *)
Theorem last_point_time_zero (sensor_id : string) (msg : PointCloud2)
    (st : SensorBridge) :
  (forall back,
      last (fromROSMsg_ouster msg) = Some back ->
      isnan_ouster back || isinf_ouster back = false ->
      is_finite (to_double (ouster_seconds back)) = true ->
      exists stamp cloud,
        HandlePointCloud2Message sensor_id msg "ouster" st =
        HandleRangefinder sensor_id stamp (frame_id (PointCloud2_header msg)) cloud st /\
        p_t <$> last cloud = Some zero) /\
  (forall back,
      last (fromROSMsg_velodyne msg) = Some back ->
      isnan_velodyne back || isinf_velodyne back = false ->
      is_finite (to_double (ve_time back)) = true ->
      exists stamp cloud,
        HandlePointCloud2Message sensor_id msg "velodyne" st =
        HandleRangefinder sensor_id stamp (frame_id (PointCloud2_header msg)) cloud st /\
        p_t <$> last cloud = Some zero) /\
  (forall back,
      last (fromROSMsg_robosense msg) = Some back ->
      isnan_robosense back || isinf_robosense back = false ->
      is_finite (rs_timestamp back) = true ->
      exists stamp cloud,
        HandlePointCloud2Message sensor_id msg "robosense" st =
        HandleRangefinder sensor_id stamp (frame_id (PointCloud2_header msg)) cloud st /\
        p_t <$> last cloud = Some zero).
Proof.
  split; [|split]; intros back Hback Hkeep Hfin;
    unfold HandlePointCloud2Message; cbn [String.eqb Ascii.eqb Bool.eqb];
    rewrite Hback, emplace_loop_filter; cbn [app];
    eexists _, _; (split; [reflexivity|]);
    erewrite last_kept by (exact Hback || now rewrite Hkeep);
    cbn [fmap option_fmap option_map p_t]; f_equal;
    now apply rebase_back_finite.
Qed.

Lemma HandleLaserScan_body_calls (sensor_id : string) (time : Time)
    (frame_id : string) (pts : PointCloudWithIntensities) (k i : Z) (st : SensorBridge) :
  calls (HandleLaserScan_body sensor_id time frame_id pts k i st) = [] \/
  exists back T,
    last (subdivision (points pts) k i) = Some back /\
    calls (HandleLaserScan_body sensor_id time frame_id pts k i st) =
    [rangefinder_call sensor_id (subdivision_time_of time back) T
       (map (rebase (to_double (p_t back))) (subdivision (points pts) k i))].
Proof.
  rewrite HandleLaserScan_body_cases. cbv zeta.
  destruct (negb _); [now left|].
  destruct (_ =? _); [now left|].
  destruct (last (subdivision _ _ _)) as [back|] eqn:Hback; [|now left].
  destruct (ignored _ _ _); [now left|].
  destruct (eqb _ _); [|now left].
  destruct (LookupToTracking _ _) as [T|]; [|now left].
  right. exists back, T. now split.
Qed.

Lemma HandleLaserScan_loop_in_order (sensor_id : string) (time : Time)
    (frame_id : string) (pts : PointCloudWithIntensities) (k : Z)
    (remaining : nat) (i : Z) (st : SensorBridge) :
  exists indices : list Z,
    StronglySorted Z.lt indices /\
    Forall (fun j => i <= j < i + Z.of_nat remaining) indices /\
    Forall2
      (fun j call =>
         exists back T,
           last (subdivision (points pts) k j) = Some back /\
           call = rangefinder_call sensor_id (subdivision_time_of time back) T
                    (map (rebase (to_double (p_t back))) (subdivision (points pts) k j)))
      indices
      (calls (HandleLaserScan_loop remaining sensor_id time frame_id pts k i st)).
Proof.
  revert i st. induction remaining as [|remaining IH]; intros i st.
  - exists []. repeat split; constructor.
  - cbn [HandleLaserScan_loop]. rewrite calls_bind.
    pose proof (HandleLaserScan_body_calls sensor_id time frame_id pts k i st) as Hbody.
    destruct (HandleLaserScan_body sensor_id time frame_id pts k i st)
      as [cs r] eqn:Heq.
    cbn [calls fst] in Hbody |- *.
    assert (Hrest : exists indices : list Z,
      StronglySorted Z.lt indices /\
      Forall (fun j => i + 1 <= j < i + 1 + Z.of_nat remaining) indices /\
      Forall2
        (fun j call =>
           exists back T,
             last (subdivision (points pts) k j) = Some back /\
             call = rangefinder_call sensor_id (subdivision_time_of time back) T
                      (map (rebase (to_double (p_t back)))
                           (subdivision (points pts) k j)))
        indices
        match r with
        | Done _ st' =>
            (HandleLaserScan_loop remaining sensor_id time frame_id pts k (i + 1) st').1
        | Stopped => []
        end).
    { destruct r as [[] st'|]; [apply IH|]. exists []. repeat split; constructor. }
    destruct Hrest as (indices & Hsorted & Hrange & Hcalls).
    assert (Hwiden : Forall (fun j => i <= j < i + Z.of_nat (S remaining)) indices).
    { eapply Forall_impl; [exact Hrange|]. cbn beta. lia. }
    destruct Hbody as [-> | (back & T & Hback & ->)].
    + exists indices. now repeat split.
    + exists (i :: indices). split; [|split].
      * constructor; [assumption|]. eapply Forall_impl; [exact Hrange|]. cbn beta. lia.
      * constructor; [lia | assumption].
      * cbn [app]. constructor; [|exact Hcalls]. exists back, T. now split.
Qed.

(** X14: the records [HandleLaserScan] forwards come from subdivisions of
    strictly increasing index: the subdivisions are forwarded in the order
    of the scan, each at most once, re-based and stamped by its own last
    point. *)
Theorem forwarded_in_scan_order (sensor_id : string) (time : Time)
    (frame_id : string) (pts : PointCloudWithIntensities) (st : SensorBridge) :
  exists indices : list Z,
    StronglySorted Z.lt indices /\
    Forall (fun i => 0 <= i < num_subdivisions_per_laser_scan_ st) indices /\
    Forall2
      (fun i call =>
         exists back T,
           last (subdivision (points pts) (num_subdivisions_per_laser_scan_ st) i) =
           Some back /\
           call = rangefinder_call sensor_id (subdivision_time_of time back) T
                    (map (rebase (to_double (p_t back)))
                         (subdivision (points pts)
                            (num_subdivisions_per_laser_scan_ st) i)))
      indices (calls (HandleLaserScan sensor_id time frame_id pts st)).
Proof.
  assert (Hnone : calls (@pair (list Call) (outcome unit) [] Stopped) = []) by reflexivity.
  unfold HandleLaserScan.
  destruct (last (points pts)) as [back|];
    [|exists []; repeat split; constructor].
  unfold CHECK. destruct (leb (p_t back) zero);
    [|exists []; repeat split; constructor].
  unfold bind, ret, get. cbv beta iota.
  destruct (num_subdivisions_per_laser_scan_ st <? 0) eqn:Hneg;
    [exists []; repeat split; constructor|].
  destruct (HandleLaserScan_loop_in_order sensor_id time frame_id pts
              (num_subdivisions_per_laser_scan_ st)
              (Z.to_nat (num_subdivisions_per_laser_scan_ st)) 0 st)
    as (indices & Hsorted & Hrange & Hcalls).
  destruct (HandleLaserScan_loop _ _ _ _ _ _ _ _) as [cs r].
  exists indices. split; [assumption|]. split; [|exact Hcalls].
  eapply Forall_impl; [exact Hrange|]. cbn beta. apply Z.ltb_ge in Hneg. lia.
Qed.

End Records.

(** ** The further properties on the tree of translations *)

(** A cloud, an odometry message and an IMU message in frame ["/laser"]
    and in frame ["laser"]. *)
Lemma leading_slash_ignored_witness :
  HandleRangefinder "scan" 7 "/laser" [Translations.pt 1 0] Translations.bridge2 =
  HandleRangefinder "scan" 7 "laser" [Translations.pt 1 0] Translations.bridge2 /\
  HandleImuMessage "imu" (Translations.imu_at "/laser") Translations.bridge2 =
  HandleImuMessage "imu" (Translations.imu_at "laser") Translations.bridge2.
Proof.
  pose proof (leading_slash_ignored (C := Translations.collaborators) "laser"
                ltac:(discriminate) ltac:(discriminate)) as (Hcloud & _ & Himu).
  split.
  - apply Hcloud.
  - apply (Himu "imu"%string {| sec := 100; nsec := 0 |}).
Defined.

(** The second half of the four points of [scan4]. *)
Lemma subdivisions_balanced_witness :
  4 / 2 <= Z.of_nat (length (subdivision (points Translations.cloud4) 2 1)) <= 4 / 2 + 1 /\
  (2 <= 4 -> subdivision (points Translations.cloud4) 2 1 <> []).
Proof.
  apply (subdivisions_balanced (points Translations.cloud4) 2 1);
    [lia | simpl; lia | lia].
Defined.

(** A scan without points, and [scan4] with a last point a quarter of a
    second after the end of the scan. *)
Lemma HandleLaserScan_edge_cases_witness :
  HandleLaserScan "scan" Translations.time4 "laser"
    {| points := []; intensities := [] |} Translations.bridge2 =
  ([], Done tt Translations.bridge2) /\
  HandleLaserScan "scan" Translations.time4 "laser"
    {| points := [Translations.pt 1 0; Translations.pt 2 1]; intensities := [] |}
    Translations.bridge2 = ([], Stopped).
Proof.
  split.
  - apply (proj1 (HandleLaserScan_edge_cases (C := Translations.collaborators)
                    "scan" Translations.time4 "laser"
                    {| points := []; intensities := [] |} Translations.bridge2)).
    reflexivity.
  - apply (proj1 (proj2 (HandleLaserScan_edge_cases (C := Translations.collaborators)
                    "scan" Translations.time4 "laser"
                    {| points := [Translations.pt 1 0; Translations.pt 2 1];
                       intensities := [] |} Translations.bridge2))
             (Translations.pt 2 1)); reflexivity.
Defined.

(** [scan4] handled by a bridge that makes one subdivision. *)
Lemma single_subdivision_witness :
  HandleLaserScan "scan" Translations.time4 "laser" Translations.cloud4 Samples.bridge1 =
  (match Translations.lookup_frame
           (subdivision_time_of Translations.time4 (Translations.pt 4 0))
           (CheckNoLeadingSlash "laser") with
   | Some T =>
       [rangefinder_call "scan"
          (subdivision_time_of Translations.time4 (Translations.pt 4 0)) T
          (map (rebase (to_double (p_t (Translations.pt 4 0))))
               (points Translations.cloud4))]
   | None => []
   end,
   Done tt (record_subdivision_time Samples.bridge1 "scan"
              (subdivision_time_of Translations.time4 (Translations.pt 4 0)))).
Proof.
  apply (single_subdivision (C := Translations.collaborators)
           "scan" Translations.time4 "laser" Translations.cloud4 Samples.bridge1
           (Translations.pt 4 0));
    [reflexivity | simpl; lia | reflexivity | reflexivity | reflexivity | reflexivity].
Defined.

(** [scan4], of finite times, in two subdivisions. *)
Lemma HandleLaserScan_completes_witness :
  exists st',
    final (HandleLaserScan "scan" Translations.time4 "laser" Translations.cloud4
             Translations.bridge2) = Some st'.
Proof.
  apply (HandleLaserScan_completes (C := Translations.collaborators)
           "scan" Translations.time4 "laser" Translations.cloud4 Translations.bridge2
           (Translations.pt 4 0));
    [simpl; lia | simpl; lia | reflexivity | reflexivity
    | repeat constructor].
Defined.

(** [scan4] handled a second time. *)
Lemma laser_scan_replay_witness :
  HandleLaserScan "scan" Translations.time4 "/laser" Translations.cloud4
    Samples.halves_recorded = ([], Done tt Samples.halves_recorded).
Proof.
  apply (laser_scan_replay (C := Translations.collaborators)
           "scan" Translations.time4 "/laser" Translations.cloud4 Translations.bridge2).
  reflexivity.
Defined.

(** The number of subdivisions after the NavSatFix messages [fixes]. *)
Lemma num_subdivisions_constant_witness :
  num_subdivisions_per_laser_scan_ Samples.frame_set =
  num_subdivisions_per_laser_scan_ Translations.bridge2.
Proof.
  apply (num_subdivisions_constant (C := Translations.collaborators) Translations.fixes).
  reflexivity.
Defined.

(** The time recorded for ["scan"] before and after a scan of another
    sensor. *)
Lemma recorded_time_of_other_sensors_witness :
  previous_subdivision_time
    (record_subdivision_time
       (record_subdivision_time Translations.bridge2 "other"
          (subdivision_time_of Translations.time4 (Translations.pt 2 (-2))))
       "other" (subdivision_time_of Translations.time4 (Translations.pt 4 0)))
    "scan" =
  previous_subdivision_time Translations.bridge2 "scan".
Proof.
  apply (recorded_time_of_other_sensors (C := Translations.collaborators) "scan"
           [LaserScanMessage (C := Translations.collaborators) "other"
              Translations.scan4] Translations.bridge2).
  - repeat constructor.
  - reflexivity.
Defined.

(** The times recorded and forwarded when [scan4] is handled once. *)
Lemma recorded_time_never_decreases_witness :
  (forall t, reached (previous_subdivision_time Translations.bridge2 "scan") t ->
             reached (previous_subdivision_time Samples.halves_recorded "scan") t) /\
  Forall (reached (previous_subdivision_time Samples.halves_recorded "scan"))
         (subdivision_times "scan"
            (run [LaserScanMessage "scan" Translations.scan4] Translations.bridge2).1).
Proof.
  apply (recorded_time_never_decreases (C := Translations.collaborators) "scan"
           [LaserScanMessage (C := Translations.collaborators) "scan"
              Translations.scan4] Translations.bridge2).
  reflexivity.
Defined.

(** The record of an odometry message. *)
Lemma records_match_message_witness :
  Samples.odometry_record.1 = "odom"%string /\
  record_of (OdometryMessage "odom" Translations.odometry1) Samples.odometry_record.2 = true.
Proof.
  apply (records_match_message (C := Translations.collaborators)
           (OdometryMessage (C := Translations.collaborators) "odom"
              Translations.odometry1) Translations.bridge2).
  left. reflexivity.
Defined.

(** The Velodyne cloud of [cloud3], whose last point is kept. *)
Lemma last_point_time_zero_witness :
  exists stamp cloud,
    HandlePointCloud2Message "pc" Translations.cloud3 "velodyne" Translations.bridge2 =
    HandleRangefinder "pc" stamp "laser" cloud Translations.bridge2 /\
    p_t <$> last cloud = Some zero.
Proof.
  apply (proj1 (proj2 (last_point_time_zero (C := Translations.collaborators)
                         "pc" Translations.cloud3 Translations.bridge2))
           {| ve_x := float_of_Z 3; ve_y := zero; ve_z := zero;
              ve_time := Translations.quarter 2 |});
    reflexivity.
Defined.
